(** * Comparable discovery for industrial properties

    A shallow embedding of [backend/analysis.py]: the [PropertyData] record,
    [DataExtractionAgent._validate_property_data],
    [ComparableDiscoveryAgent] (similarity score and nearest-neighbour search)
    and [PropertyAnalysisSystem.analyze_property_comparables].

    Numbers.  Python [float] values are embedded as exact rationals ([Q]) and
    Python [int] values as [Z]; the rounding error of binary floating point
    is not part of the model, and the fields of a record hold finite
    numbers.  The dictionaries that the code reads hold any value, also the
    floats NaN and infinity.

    The geodesic distance of [geopy] is a library function outside the
    repository: it is a parameter of the development, taken as a total
    function, and each theorem lists the property of it that it relies on
    (non-negative, symmetric, zero between equal points).  What the library
    and the float arithmetic raise themselves ([ValueError] of [geopy] for
    a latitude outside [-90, 90], [OverflowError] of a division of huge
    integers) is therefore not part of the model: where a theorem gives the
    value that the scoring returns, it is the value for coordinates that
    the library accepts. *)

From Stdlib Require Import QArith Qminmax Qabs Qround Lqa ZArith Lia.
From Stdlib Require Import Sorted.
From stdpp Require Import gmap strings list.

Local Open Scope Q_scope.

(* ===================================================================== *)
(** ** The Python runtime that the code relies on *)
(* ===================================================================== *)

(** Exceptions that the modelled code can raise.  [OutsideModel] is not a
    Python exception: it marks an input that the typed data model of the
    embedding cannot hold (a dictionary value whose dynamic type is not the
    one of the dataclass annotation).  Python goes on with such a value as
    it is; the embedding stops there, and no theorem concludes anything
    from it. *)
Inductive pyexc : Type :=
  | ZeroDivisionError
  | TypeError
  | KeyError
  | OutsideModel.

(** A call either returns a value or raises. *)
Inductive outcome (A : Type) : Type :=
  | Returned (a : A)
  | Raised (e : pyexc).
Arguments Returned {A} a.
Arguments Raised {A} e.

#[global] Instance outcome_ret : MRet outcome := @Returned.
#[global] Instance outcome_bind : MBind outcome := fun A B f m =>
  match m with
  | Returned a => f a
  | Raised e => Raised e
  end.

(** Dynamically typed values, as they occur in the dictionaries handled by
    the code (JSON payloads, mock API rows).  A float is a finite number
    [PyFloat q] or one of the three special values: not a number, plus and
    minus infinity. *)
Inductive pyval : Type :=
  | PyNone
  | PyStr (s : string)
  | PyInt (z : Z)
  | PyFloat (q : Q)
  | PyNaN
  | PyInf
  | PyNegInf.

Definition Qltb (a b : Q) : bool :=
  match a ?= b with
  | Lt => true
  | _ => false
  end.

(** [min(a, b)]: the first argument is kept unless the second is smaller. *)
Definition py_min (a b : Q) : Q := if Qltb b a then b else a.

(** [max(a, b)]: the first argument is kept unless the second is larger. *)
Definition py_max (a b : Q) : Q := if Qltb a b then b else a.

(** [a / b] on numbers. *)
Definition py_truediv (a b : Q) : outcome Q :=
  if Qeq_bool b 0 then Raised ZeroDivisionError else Returned (a / b).

(** [v <= b] and [v >= b] for a value [v] and a number [b].  Ordering a
    string or [None] against a number raises [TypeError]; a comparison
    with NaN is false. *)
Definition py_le_number (v : pyval) (b : Q) : outcome bool :=
  match v with
  | PyInt z => Returned (Qle_bool (inject_Z z) b)
  | PyFloat q => Returned (Qle_bool q b)
  | PyNaN | PyInf => Returned false
  | PyNegInf => Returned true
  | PyNone | PyStr _ => Raised TypeError
  end.

Definition py_ge_number (v : pyval) (b : Q) : outcome bool :=
  match v with
  | PyInt z => Returned (Qle_bool b (inject_Z z))
  | PyFloat q => Returned (Qle_bool b q)
  | PyNaN | PyNegInf => Returned false
  | PyInf => Returned true
  | PyNone | PyStr _ => Raised TypeError
  end.

(** [d[k]] on a dictionary. *)
Definition py_getitem {V : Type} (d : gmap string V) (k : string) : outcome V :=
  match d !! k with
  | Some v => Returned v
  | None => Raised KeyError
  end.

(** [l[:k]]: a negative bound counts from the end of the list. *)
Definition py_slice_to {A : Type} (k : Z) (l : list A) : list A :=
  if (0 <=? k)%Z then firstn (Z.to_nat k) l
  else firstn (Z.to_nat (Z.of_nat (length l) + k)) l.

(** [round(x, ndigits)] on the exact value of [x]: to the nearest multiple
    of [10^-ndigits], ties to the even one. *)
Definition py_round (x : Q) (ndigits : nat) : Q :=
  let scale := inject_Z (10 ^ Z.of_nat ndigits) in
  let y := x * scale in
  let f := Qfloor y in
  let r := y - inject_Z f in
  let n := match r ?= 1 # 2 with
           | Lt => f
           | Gt => (f + 1)%Z
           | Eq => if Z.even f then f else (f + 1)%Z
           end in
  inject_Z n / scale.

(** [sum(xs)]: starts from [0] and adds from the left. *)
Definition py_sum (xs : list Q) : Q := fold_left Qplus xs 0.

(** A [for] loop over a list, threading the loop state and stopping at the
    first exception. *)
Fixpoint py_for {A S : Type} (xs : list A) (body : S -> A -> outcome S) (s : S)
  : outcome S :=
  match xs with
  | [] => Returned s
  | x :: xs' => s' ← body s x; py_for xs' body s'
  end.

(** [l.sort(key=key, reverse=True)].  Python's sort is stable, and
    [reverse=True] keeps that: the result is ordered by decreasing key and
    items with equal keys stay in their original order. *)
Section ListSort.
Context {A : Type} (key : A -> Q).

Fixpoint insert_desc (x : A) (l : list A) : list A :=
  match l with
  | [] => [x]
  | y :: l' =>
      if Qltb (key x) (key y) then y :: insert_desc x l' else x :: y :: l'
  end.

Definition list_sort_reverse (l : list A) : list A :=
  foldr insert_desc [] l.

(** The order of the result: keys do not increase. *)
Definition key_ge (x y : A) : Prop := key y <= key x.
End ListSort.

(* ===================================================================== *)
(** ** Data model *)
(* ===================================================================== *)

(** [@dataclass class PropertyData]. *)
Record PropertyData : Type := mkPropertyData {
  property_id : string;
  address : string;
  city : string;
  county : string;
  state : string;
  zip_code : string;
  latitude : Q;
  longitude : Q;
  building_area : Q;
  lot_size : Q;
  year_built : Z;
  zoning : string;
  property_type : string;
  assessed_value : Q;
  sale_price : option Q;
  sale_date : option string;
  last_updated : string
}.

Definition PropertyData_fields : list string :=
  ["property_id"; "address"; "city"; "county"; "state"; "zip_code";
   "latitude"; "longitude"; "building_area"; "lot_size"; "year_built";
   "zoning"; "property_type"; "assessed_value"; "sale_price"; "sale_date";
   "last_updated"]%string.

(** The fields without a default value. *)
Definition PropertyData_required : list string :=
  ["property_id"; "address"; "city"; "county"; "state"; "zip_code";
   "latitude"; "longitude"; "building_area"; "lot_size"; "year_built";
   "zoning"; "property_type"; "assessed_value"]%string.

Definition pyval_number (v : pyval) : option Q :=
  match v with
  | PyInt z => Some (inject_Z z)
  | PyFloat q => Some q
  | _ => None
  end.

(** The value of a keyword as a field of the typed record.  A missing
    keyword without default is the constructor's [TypeError]; a value of
    another dynamic type than the annotation is outside the typed model. *)
Definition kw_str (d : gmap string pyval) (k : string) : outcome string :=
  match d !! k with
  | Some (PyStr s) => Returned s
  | Some _ => Raised OutsideModel
  | None => Raised TypeError
  end.

Definition kw_float (d : gmap string pyval) (k : string) : outcome Q :=
  match d !! k with
  | Some v => match pyval_number v with
              | Some q => Returned q
              | None => Raised OutsideModel
              end
  | None => Raised TypeError
  end.

Definition kw_int (d : gmap string pyval) (k : string) : outcome Z :=
  match d !! k with
  | Some (PyInt z) => Returned z
  | Some _ => Raised OutsideModel
  | None => Raised TypeError
  end.

Definition kw_opt_float (d : gmap string pyval) (k : string)
  : outcome (option Q) :=
  match d !! k with
  | None | Some PyNone => Returned None
  | Some v => match pyval_number v with
              | Some q => Returned (Some q)
              | None => Raised OutsideModel
              end
  end.

Definition kw_opt_str (d : gmap string pyval) (k : string)
  : outcome (option string) :=
  match d !! k with
  | None | Some PyNone => Returned None
  | Some (PyStr s) => Returned (Some s)
  | Some _ => Raised OutsideModel
  end.

(** The call [PropertyData] with the entries of [data] as keyword
    arguments, followed by [__post_init__].  The generated constructor
    raises [TypeError] for a keyword that is not a field and for a missing
    field without default, whatever the other values are; it checks
    nothing else, and in particular no type and no range.  The record of
    the model is typed after the annotations of the dataclass, so the
    embedding covers dictionaries whose values have the annotated types (a
    number for a [float] field); for any other dictionary with the right
    keywords, where Python builds an object with the values as they are,
    it yields [OutsideModel].  [now] is the reading of
    [datetime.now().isoformat()]. *)
Definition PropertyData_from_kwargs (now : string) (d : gmap string pyval)
  : outcome PropertyData :=
  if negb (bool_decide (map_Forall (fun k _ => k ∈ PropertyData_fields) d))
  then Raised TypeError
  else if negb (forallb (fun k => bool_decide (is_Some (d !! k)))
                        PropertyData_required)
  then Raised TypeError
  else
    property_id ← kw_str d "property_id";
    address ← kw_str d "address";
    city ← kw_str d "city";
    county ← kw_str d "county";
    state ← kw_str d "state";
    zip_code ← kw_str d "zip_code";
    latitude ← kw_float d "latitude";
    longitude ← kw_float d "longitude";
    building_area ← kw_float d "building_area";
    lot_size ← kw_float d "lot_size";
    year_built ← kw_int d "year_built";
    zoning ← kw_str d "zoning";
    property_type ← kw_str d "property_type";
    assessed_value ← kw_float d "assessed_value";
    sale_price ← kw_opt_float d "sale_price";
    sale_date ← kw_opt_str d "sale_date";
    last_updated ← kw_opt_str d "last_updated";
    Returned (mkPropertyData property_id address city county state zip_code
                latitude longitude building_area lot_size year_built zoning
                property_type assessed_value sale_price sale_date
                (default now last_updated)).

(** *** DataExtractionAgent._validate_property_data *)

Definition isinstance_str (v : pyval) : bool :=
  match v with PyStr _ => true | _ => false end.

Definition isinstance_float (v : pyval) : bool :=
  match v with PyFloat _ | PyNaN | PyInf | PyNegInf => true | _ => false end.

Definition isinstance_int_or_float (v : pyval) : bool :=
  match v with PyInt _ => true | _ => isinstance_float v end.

Definition required_fields : list (string * (pyval -> bool)) :=
  [("property_id", isinstance_str);
   ("address", isinstance_str);
   ("building_area", isinstance_int_or_float);
   ("latitude", isinstance_float);
   ("longitude", isinstance_float);
   ("zoning", isinstance_str)]%string.

Definition field_present_with_type (data : gmap string pyval)
    (entry : string * (pyval -> bool)) : bool :=
  match data !! entry.1 with
  | None => false
  | Some v => entry.2 v
  end.

(** [lo <= v <= hi]: the second comparison is made only if the first
    holds. *)
Definition py_between (lo : Q) (v : pyval) (hi : Q) : outcome bool :=
  above ← py_ge_number v lo;
  if (above : bool) then py_le_number v hi else Returned false.

(** The three range checks, in the order of the code. *)
Definition validate_ranges (data : gmap string pyval) : outcome bool :=
  area ← py_getitem data "building_area";
  nonpositive ← py_le_number area 0;
  if (nonpositive : bool) then Returned false
  else
    lat ← py_getitem data "latitude";
    lat_ok ← py_between (-90) lat 90;
    if negb lat_ok then Returned false
    else
      lon ← py_getitem data "longitude";
      lon_ok ← py_between (-180) lon 180;
      if negb lon_ok then Returned false
      else Returned true.

(** The whole body stands in a [try] whose [except] returns [False]. *)
Definition _validate_property_data (data : gmap string pyval) : bool :=
  if negb (forallb (field_present_with_type data) required_fields) then false
  else
    match validate_ranges data with
    | Returned b => b
    | Raised _ => false
    end.

(** [v <= 0] is false for an int or a float [v]: a positive number, NaN or
    plus infinity. *)
Definition positive_or_special (v : pyval) : Prop :=
  (exists area, pyval_number v = Some area /\ 0 < area)
  \/ v = PyNaN \/ v = PyInf.

(* ===================================================================== *)
(** ** Engine state *)
(* ===================================================================== *)

(** [class ComparableDiscoveryAgent]. *)
Record ComparableDiscoveryAgent : Type := mkComparableDiscoveryAgent {
  properties_db : list PropertyData;
  weight_factors : gmap string Q
}.

(** [ComparableDiscoveryAgent.__init__]. *)
Definition ComparableDiscoveryAgent_init : ComparableDiscoveryAgent :=
  {| properties_db := [];
     weight_factors :=
       <["building_area"%string := 0.30]>
       (<["lot_size"%string := 0.20]>
       (<["age"%string := 0.15]>
       (<["zoning"%string := 0.25]>
       (<["location"%string := 0.10]> ∅)))) |}.

Definition load_properties (self : ComparableDiscoveryAgent)
    (properties : list PropertyData) : ComparableDiscoveryAgent :=
  {| properties_db := properties; weight_factors := weight_factors self |}.

(** [class PropertyAnalysisSystem], restricted to the attributes the
    analysis reads. *)
Record PropertyAnalysisSystem : Type := mkPropertyAnalysisSystem {
  comparable_discovery : ComparableDiscoveryAgent;
  properties_database : list PropertyData
}.

Definition PropertyAnalysisSystem_init : PropertyAnalysisSystem :=
  {| comparable_discovery := ComparableDiscoveryAgent_init;
     properties_database := [] |}.

(** [initialize_system], with the records extracted from the (mock) county
    sources given as [all_properties]. *)
Definition initialize_system (self : PropertyAnalysisSystem)
    (all_properties : list PropertyData) : PropertyAnalysisSystem :=
  {| properties_database := all_properties;
     comparable_discovery :=
       load_properties (comparable_discovery self) all_properties |}.

(** The dictionaries built by [analyze_property_comparables]. *)
Record ComparableData : Type := mkComparableData {
  comp_property : PropertyData;
  similarity_score : Q;
  confidence_level : string
}.

Record AnalysisSummary : Type := mkAnalysisSummary {
  total_comparables_found : nat;
  avg_similarity_score : Q;
  analysis_date : string
}.

Inductive AnalysisDict : Type :=
  | ErrorDict (error : string)
  | ResultsDict (target_property : PropertyData)
                (comparables : list ComparableData)
                (analysis_summary : AnalysisSummary).

(** Truthiness of an optional string ([None] and the empty string are
    false) and of an optional dictionary ([None] and the empty dictionary are
    false): the value is returned when it is true. *)
Definition truthy_str (o : option string) : option string :=
  match o with
  | Some s => if bool_decide (s = ""%string) then None else Some s
  | None => None
  end.

Definition truthy_dict (o : option (gmap string pyval))
  : option (gmap string pyval) :=
  match o with
  | Some d => if bool_decide (d = ∅) then None else Some d
  | None => None
  end.

(** The two error dictionaries of [analyze_property_comparables]. *)
Definition not_found_error (id : string) : AnalysisDict :=
  ErrorDict ("Property with ID " +:+ id +:+ " not found").

Definition argument_error : AnalysisDict :=
  ErrorDict "Either property_id or property_data must be provided".

(** An agent, and a system, as constructed and then loaded with a catalog. *)
Definition catalog_agent (db : list PropertyData) : ComparableDiscoveryAgent :=
  load_properties ComparableDiscoveryAgent_init db.

Definition catalog_system (db : list PropertyData) : PropertyAnalysisSystem :=
  initialize_system PropertyAnalysisSystem_init db.

(** The catalog entries that [find_comparables] keeps for a target. *)
Definition other_properties (target : PropertyData) (db : list PropertyData)
  : list PropertyData :=
  List.filter (fun p => bool_decide (property_id p ≠ property_id target)) db.

(** The entries of a scored list whose score equals [s]. *)
Definition with_score (s : Q) (l : list (PropertyData * Q))
  : list (PropertyData * Q) :=
  List.filter (fun c => Qeq_bool c.2 s) l.

(* ===================================================================== *)
(** ** The engine *)
(* ===================================================================== *)

Section Engine.
(** [geodesic(p, q).miles] of [geopy], on (latitude, longitude) pairs. *)
Variable geodesic_miles : Q * Q -> Q * Q -> Q.
(** The reading of [datetime.now().isoformat()]. *)
Variable now : string.

(** [ComparableDiscoveryAgent.calculate_similarity_score]. *)
Definition calculate_similarity_score (self : ComparableDiscoveryAgent)
    (target comp : PropertyData) : outcome Q :=
  area_ratio ← py_truediv
    (py_min (building_area target) (building_area comp))
    (py_max (building_area target) (building_area comp));
  let distance :=
    geodesic_miles (latitude target, longitude target)
                   (latitude comp, longitude comp) in
  let location_score := py_max 0 (1 - distance / 10) in
  let age_diff := Z.abs (year_built target - year_built comp) in
  let age_score := py_max 0 (1 - inject_Z age_diff / 50) in
  w_area ← py_getitem (weight_factors self) "building_area";
  w_location ← py_getitem (weight_factors self) "location";
  w_age ← py_getitem (weight_factors self) "age";
  Returned (area_ratio * w_area + location_score * w_location
            + age_score * w_age).

(** The value that [calculate_similarity_score] returns when the area
    ratio is defined and the three weights are those of [__init__]. *)
Definition score_value (target comp : PropertyData) : Q :=
  py_min (building_area target) (building_area comp)
    / py_max (building_area target) (building_area comp) * 0.30
  + py_max 0 (1 - geodesic_miles (latitude target, longitude target)
                                 (latitude comp, longitude comp) / 10) * 0.10
  + py_max 0 (1 - inject_Z (Z.abs (year_built target - year_built comp)) / 50)
    * 0.15.

(** The body of the loop of [find_comparables]. *)
Definition find_comparables_step (self : ComparableDiscoveryAgent)
    (target : PropertyData) (results : list (PropertyData * Q))
    (prop : PropertyData) : outcome (list (PropertyData * Q)) :=
  if bool_decide (property_id prop ≠ property_id target) then
    score ← calculate_similarity_score self target prop;
    Returned (results ++ [(prop, score)])
  else Returned results.

(** [ComparableDiscoveryAgent.find_comparables]. *)
Definition find_comparables (self : ComparableDiscoveryAgent)
    (target : PropertyData) (max_results : Z)
  : outcome (list (PropertyData * Q)) :=
  results ← py_for (properties_db self)
              (find_comparables_step self target) [];
  Returned (py_slice_to max_results (list_sort_reverse snd results)).

(** What the loop of [find_comparables] has appended when it ends
    normally: the catalog entries other than the target, in catalog order,
    each with its score. *)
Definition scored_others (self : ComparableDiscoveryAgent)
    (target : PropertyData) (scored : list (PropertyData * Q)) : Prop :=
  map fst scored = other_properties target (properties_db self)
  /\ Forall (fun c => calculate_similarity_score self target c.1
                      = Returned c.2) scored.

(** The confidence label of a score. *)
Definition confidence_label (similarity : Q) : string :=
  if Qltb 0.8 similarity then "High"
  else if Qltb 0.6 similarity then "Medium"
  else "Low".

Definition comparable_data (c : PropertyData * Q) : ComparableData :=
  {| comp_property := c.1;
     similarity_score := py_round c.2 3;
     confidence_level := confidence_label c.2 |}.

(** The dictionary assembled from the target and its comparables. *)
Definition analysis_results (target : PropertyData)
    (comps : list (PropertyData * Q)) : AnalysisDict :=
  ResultsDict target (map comparable_data comps)
    {| total_comparables_found := length comps;
       avg_similarity_score :=
         match comps with
         | [] => 0
         | _ :: _ => py_sum (map snd comps) / inject_Z (Z.of_nat (length comps))
         end;
       analysis_date := now |}.

(** [PropertyAnalysisSystem.analyze_property_comparables]; [find_comparables]
    is called with its default [max_results=5]. *)
Definition analyze_property_comparables (self : PropertyAnalysisSystem)
    (pid : option string) (property_data : option (gmap string pyval))
  : outcome AnalysisDict :=
  match truthy_str pid with
  | Some id =>
      match List.find (fun p => bool_decide (property_id p = id))
                      (properties_database self) with
      | None =>
          Returned (not_found_error id)
      | Some target =>
          comps ← find_comparables (comparable_discovery self) target 5;
          Returned (analysis_results target comps)
      end
  | None =>
      match truthy_dict property_data with
      | Some data =>
          target ← PropertyData_from_kwargs now data;
          comps ← find_comparables (comparable_discovery self) target 5;
          Returned (analysis_results target comps)
      | None =>
          Returned argument_error
      end
  end.
End Engine.

(* ===================================================================== *)
(** ** Sample data *)
(* ===================================================================== *)

(** A computable distance with which the engine can be run: 69 miles per
    degree along each axis.  It only instantiates the parameter
    [geodesic_miles]; it is not [geopy]'s geodesic. *)
Definition grid_miles (p q : Q * Q) : Q :=
  69 * (Qabs (p.1 - q.1) + Qabs (p.2 - q.2)).

Definition sample_property (id : string) (lat lon area : Q) (year : Z)
  : PropertyData :=
  {| property_id := id; address := "1200 Devon Ave";
     city := "Elk Grove Village";
     county := "Cook County"; state := "IL"; zip_code := "60007";
     latitude := lat; longitude := lon; building_area := area;
     lot_size := 2 * area; year_built := year; zoning := "M1";
     property_type := "Industrial"; assessed_value := 100 * area;
     sale_price := None; sale_date := None;
     last_updated := "2024-01-01T00:00:00" |}.

Definition sample_catalog : list PropertyData :=
  [ sample_property "CO0000" 41.8781 (-87.6298) 50000 2000;
    sample_property "CO0001" 41.8781 (-87.6298) 25000 2000;
    sample_property "CO0002" 42.0955 (-87.6298) 50000 2000;
    sample_property "CO0003" 41.8781 (-87.6298) 50000 2000 ].

Definition sample_system : PropertyAnalysisSystem :=
  catalog_system sample_catalog.

(** A dictionary with the fields of [tests/test.py]'s [test_property],
    with [building_area] as a parameter. *)
Definition test_property_with_area (area : pyval) : gmap string pyval :=
  list_to_map
    [("property_id", PyStr "TEST001"); ("address", PyStr "123 Test St");
     ("city", PyStr "Chicago"); ("county", PyStr "Cook County");
     ("state", PyStr "IL"); ("zip_code", PyStr "60601");
     ("latitude", PyFloat 41.8781); ("longitude", PyFloat (-87.6298));
     ("building_area", area); ("lot_size", PyInt 100000);
     ("year_built", PyInt 2000); ("zoning", PyStr "M1");
     ("property_type", PyStr "Industrial");
     ("assessed_value", PyInt 2000000)]%string.

Definition test_property : gmap string pyval :=
  test_property_with_area (PyInt 50000).

Definition sample_now : string := "2024-06-01T12:00:00".

(** Three catalog records and a record that is not in the catalog. *)
Definition sample_target : PropertyData :=
  sample_property "CO0000" 41.8781 (-87.6298) 50000 2000.

Definition sample_candidate : PropertyData :=
  sample_property "CO0001" 41.8781 (-87.6298) 25000 2000.

Definition sample_twin : PropertyData :=
  sample_property "CO0003" 41.8781 (-87.6298) 50000 2000.

Definition adhoc_target : PropertyData :=
  sample_property "TEST001" 41.8781 (-87.6298) 50000 2000.

(** [test_property] with a negative building area. *)
Definition invalid_test_property : gmap string pyval :=
  test_property_with_area (PyInt (-100000)).

(** A record with a negative building area, a latitude of 200 degrees and
    a longitude of -500 degrees. *)
Definition invalid_record : PropertyData :=
  sample_property "TEST002" 200 (-500) (-100000) 2000.

(** The comparables of [sample_target] in the sample catalog. *)
Definition sample_comparables : list (PropertyData * Q) :=
  Eval vm_compute in
    match find_comparables grid_miles (catalog_agent sample_catalog)
            sample_target 5 with
    | Returned l => l
    | Raised _ => []
    end.


(* ===================================================================== *)
(** ** Catalog queries of the analysis system *)
(* ===================================================================== *)

(** [PropertyAnalysisSystem.get_property_by_id]. *)
Definition get_property_by_id (self : PropertyAnalysisSystem) (id : string)
  : option PropertyData :=
  List.find (fun p => bool_decide (property_id p = id))
            (properties_database self).

(** The dictionary that [list_properties] builds for a record. *)
Record PropertySummary : Type := mkPropertySummary {
  summary_property_id : string;
  summary_address : string;
  summary_city : string;
  summary_county : string;
  summary_building_area : Q;
  summary_zoning : string;
  summary_assessed_value : Q
}.

Definition property_summary (p : PropertyData) : PropertySummary :=
  {| summary_property_id := property_id p;
     summary_address := address p;
     summary_city := city p;
     summary_county := county p;
     summary_building_area := building_area p;
     summary_zoning := zoning p;
     summary_assessed_value := assessed_value p |}.

(** [PropertyAnalysisSystem.list_properties]. *)
Definition list_properties (self : PropertyAnalysisSystem)
    (county_filter : option string) (limit : Z) : list PropertySummary :=
  let properties :=
    match truthy_str county_filter with
    | Some c =>
        List.filter (fun p => bool_decide (county p = c))
                    (properties_database self)
    | None => properties_database self
    end in
  map property_summary (py_slice_to limit properties).

(** [dataclasses.asdict] on a [PropertyData]. *)
Definition pyval_of_opt_float (o : option Q) : pyval :=
  match o with
  | Some q => PyFloat q
  | None => PyNone
  end.

Definition pyval_of_opt_str (o : option string) : pyval :=
  match o with
  | Some s => PyStr s
  | None => PyNone
  end.

Definition asdict (p : PropertyData) : gmap string pyval :=
  list_to_map
    [("property_id", PyStr (property_id p)); ("address", PyStr (address p));
     ("city", PyStr (city p)); ("county", PyStr (county p));
     ("state", PyStr (state p)); ("zip_code", PyStr (zip_code p));
     ("latitude", PyFloat (latitude p)); ("longitude", PyFloat (longitude p));
     ("building_area", PyFloat (building_area p));
     ("lot_size", PyFloat (lot_size p)); ("year_built", PyInt (year_built p));
     ("zoning", PyStr (zoning p)); ("property_type", PyStr (property_type p));
     ("assessed_value", PyFloat (assessed_value p));
     ("sale_price", pyval_of_opt_float (sale_price p));
     ("sale_date", pyval_of_opt_str (sale_date p));
     ("last_updated", PyStr (last_updated p))]%string.

(* ===================================================================== *)
(** ** The mock county API and the extraction agent *)
(* ===================================================================== *)

(** A list comprehension whose condition can raise. *)
Fixpoint py_list_filter {A : Type} (cond : A -> outcome bool) (l : list A)
  : outcome (list A) :=
  match l with
  | [] => Returned []
  | x :: l' =>
      keep ← cond x;
      rest ← py_list_filter cond l';
      Returned (if keep : bool then x :: rest else rest)
  end.

(** A list comprehension whose element expression can raise. *)
Fixpoint py_list_map {A B : Type} (f : A -> outcome B) (l : list A)
  : outcome (list B) :=
  match l with
  | [] => Returned []
  | x :: l' =>
      y ← f x;
      rest ← py_list_map f l';
      Returned (y :: rest)
  end.

(** The [filters] dictionary of [MockCountyAPI.get_properties]: each of the
    four keys the method looks at is present or absent; [zoning] holds a
    list of codes.  [None] and the empty dictionary are the record with no
    key present. *)
Record PropertyFilters : Type := mkPropertyFilters {
  filter_zoning : option (list string);
  filter_min_building_area : option Q;
  filter_max_building_area : option Q;
  filter_city : option string
}.

(** [p[key] in codes] for a list of strings. *)
Definition row_item_in (key : string) (codes : list string)
    (p : gmap string pyval) : outcome bool :=
  v ← py_getitem p key;
  Returned (match v with
            | PyStr s => bool_decide (s ∈ codes)
            | _ => false
            end).

(** [p[key] >= bound] and [p[key] <= bound]: ordering a string or [None]
    against a number raises [TypeError]. *)
Definition row_item_ge (key : string) (bound : Q) (p : gmap string pyval)
  : outcome bool :=
  v ← py_getitem p key;
  py_ge_number v bound.

Definition row_item_le (key : string) (bound : Q) (p : gmap string pyval)
  : outcome bool :=
  v ← py_getitem p key;
  py_le_number v bound.

(** [p[key] == s] for a string [s]. *)
Definition row_item_eq (key : string) (s : string) (p : gmap string pyval)
  : outcome bool :=
  v ← py_getitem p key;
  Returned (match v with
            | PyStr s' => bool_decide (s' = s)
            | _ => false
            end).

(** One [if key in filters: ...] stage of [get_properties]. *)
Definition filter_stage {F : Type} (f : option F)
    (cond : F -> gmap string pyval -> outcome bool)
    (rows : list (gmap string pyval)) : outcome (list (gmap string pyval)) :=
  match f with
  | Some x => py_list_filter (cond x) rows
  | None => Returned rows
  end.

(** [MockCountyAPI.get_properties], on the rows held by the mock API. *)
Definition get_properties (properties : list (gmap string pyval))
    (filters : PropertyFilters) : outcome (list (gmap string pyval)) :=
  rows ← filter_stage (filter_zoning filters) (row_item_in "zoning")
           properties;
  rows ← filter_stage (filter_min_building_area filters)
           (row_item_ge "building_area") rows;
  rows ← filter_stage (filter_max_building_area filters)
           (row_item_le "building_area") rows;
  filter_stage (filter_city filters) (row_item_eq "city") rows.

(** The zoning codes that [extract_industrial_properties] asks for. *)
Definition industrial_zoning : list string :=
  ["M1"; "M2"; "I-1"; "I-2"; "IM"; "IL"]%string.

(** [DataExtractionAgent.extract_industrial_properties].  The rows of
    [MockCountyAPI(county)] come from numpy's random generator and are a
    parameter; [now] is the reading of the clock. *)
Definition extract_industrial_properties (now : string)
    (mock_properties : list (gmap string pyval))
  : outcome (list PropertyData) :=
  properties ← get_properties mock_properties
    {| filter_zoning := Some industrial_zoning;
       filter_min_building_area := None;
       filter_max_building_area := None;
       filter_city := None |};
  py_list_map (PropertyData_from_kwargs now) properties.

(* ===================================================================== *)
(** ** The API rate limiter *)
(* ===================================================================== *)

(** Times are [datetime] values counted in microseconds, the resolution of
    [datetime]; differences are [timedelta] values in microseconds. *)
Inductive limiter_exc : Type :=
  | IndexError
  | ValueError.

(** [class APIRateLimiter]. *)
Record APIRateLimiter : Type := mkAPIRateLimiter {
  max_requests_per_minute : Z;
  requests_made : list Z;
  backoff_time : Z
}.

(** [APIRateLimiter.__init__]. *)
Definition APIRateLimiter_init (max_per_minute : Z) : APIRateLimiter :=
  {| max_requests_per_minute := max_per_minute;
     requests_made := [];
     backoff_time := 1 |}.

(** [timedelta(minutes=1)]. *)
Definition one_minute : Z := 60000000.

(** [delta.seconds]: a [timedelta] is normalised to days, seconds in
    [0, 86400) and microseconds in [0, 10^6); a negative difference has a
    negative number of days. *)
Definition timedelta_seconds (delta : Z) : Z :=
  ((delta mod 86400000000) / 1000000)%Z.

(** [APIRateLimiter.wait_if_needed], with the reading [now] of the clock.
    The result is the limiter after the call and either the exception
    raised or the number of seconds passed to [time.sleep], if it was
    called ([time.sleep] raises [ValueError] for a negative length). *)
Definition wait_if_needed (self : APIRateLimiter) (now : Z)
  : APIRateLimiter * (limiter_exc + option Z) :=
  let kept :=
    List.filter (fun req_time => (now - req_time <? one_minute)%Z)
                (requests_made self) in
  let pruned :=
    {| max_requests_per_minute := max_requests_per_minute self;
       requests_made := kept;
       backoff_time := backoff_time self |} in
  let recorded :=
    {| max_requests_per_minute := max_requests_per_minute self;
       requests_made := kept ++ [now];
       backoff_time := backoff_time self |} in
  if (max_requests_per_minute self <=? Z.of_nat (length kept))%Z then
    match kept with
    | [] => (pruned, inl IndexError)
    | first :: _ =>
        let sleep_time := (60 - timedelta_seconds (now - first))%Z in
        if (sleep_time <? 0)%Z then (pruned, inl ValueError)
        else (recorded, inr (Some sleep_time))
    end
  else (recorded, inr None).

(* ===================================================================== *)
(** ** Field-name mapping of the API discovery agent *)
(* ===================================================================== *)

(** [str.lower()] and [str.replace('_', '')] on ASCII strings: a letter
    from [A] to [Z] is replaced by its lower-case letter and every other
    character is kept. *)
Definition ascii_lower (c : Ascii.ascii) : Ascii.ascii :=
  let n := Ascii.N_of_ascii c in
  if ((65 <=? n) && (n <=? 90))%N then Ascii.ascii_of_N (n + 32) else c.

Fixpoint str_lower (s : string) : string :=
  match s with
  | EmptyString => EmptyString
  | String c s' => String (ascii_lower c) (str_lower s')
  end.

Fixpoint str_remove (c : Ascii.ascii) (s : string) : string :=
  match s with
  | EmptyString => EmptyString
  | String c' s' =>
      if Ascii.eqb c' c then str_remove c s' else String c' (str_remove c s')
  end.

(** [needle in hay] on strings: [needle] occurs in [hay] as a substring. *)
Fixpoint str_contains (needle hay : string) : bool :=
  String.prefix needle hay
  || match hay with
     | EmptyString => false
     | String _ hay' => str_contains needle hay'
     end.

(** The character ['_']. *)
Definition underscore : Ascii.ascii := Ascii.ascii_of_N 95.

(** [name.lower().replace('_', '')]. *)
Definition normalize_name (name : string) : string :=
  str_remove underscore (str_lower name).

Definition is_ascii_string (s : string) : Prop :=
  Forall (fun c => (Ascii.N_of_ascii c < 128)%N)
         (String.list_ascii_of_string s).

(** The dictionary [standard_mappings], in insertion order. *)
Definition standard_mappings : list (string * string) :=
  [("pin", "property_id");
   ("address", "address");
   ("street_address", "address");
   ("property_address", "address");
   ("city", "city");
   ("municipality", "city");
   ("county", "county");
   ("state", "state");
   ("zip", "zip_code");
   ("zip_code", "zip_code");
   ("postal_code", "zip_code");
   ("lat", "latitude");
   ("latitude", "latitude");
   ("lon", "longitude");
   ("longitude", "longitude");
   ("building_area_sq_ft", "building_area");
   ("building_sqft", "building_area");
   ("square_footage", "building_area");
   ("lot_size_sq_ft", "lot_size");
   ("lot_sqft", "lot_size");
   ("parcel_size", "lot_size");
   ("year_built", "year_built");
   ("construction_year", "year_built");
   ("zoning", "zoning");
   ("zoning_code", "zoning");
   ("property_type", "property_type");
   ("assessed_value", "assessed_value");
   ("total_value", "assessed_value")]%string.

(** The inner loop of [map_field_names]: the value of the first entry
    whose normalised key contains [normalized]. *)
Fixpoint first_standard_match (normalized : string)
    (entries : list (string * string)) : option string :=
  match entries with
  | [] => None
  | (std_key, std_value) :: rest =>
      if str_contains normalized (normalize_name std_key) then Some std_value
      else first_standard_match normalized rest
  end.

(** The body of the outer loop of [map_field_names]. *)
Definition map_field_step (field_mapping : gmap string string)
    (api_field : string) : gmap string string :=
  match first_standard_match (normalize_name api_field) standard_mappings with
  | Some std_value => <[api_field := std_value]> field_mapping
  | None => field_mapping
  end.

(** [APIDiscoveryAgent.map_field_names]; [api_fields] lists the elements
    of the set in the order in which the loop visits them. *)
Definition map_field_names (api_fields : list string) : gmap string string :=
  fold_left map_field_step api_fields ∅.

(* ===================================================================== *)
(** ** System statistics *)
(* ===================================================================== *)

(** A counting loop: [counts[k] = counts.get(k, 0) + 1] for the key of each
    record. *)
Definition count_step (key : PropertyData -> string)
    (counts : gmap string nat) (prop : PropertyData) : gmap string nat :=
  <[key prop := (default 0 (counts !! key prop) + 1)%nat]> counts.

Definition count_by (key : PropertyData -> string) (db : list PropertyData)
  : gmap string nat :=
  fold_left (count_step key) db ∅.

(** [sum(values) / len(values) if values else 0]. *)
Definition average_or_zero (values : list Q) : Q :=
  match values with
  | [] => 0
  | _ :: _ => py_sum values / inject_Z (Z.of_nat (length values))
  end.

(** The [stats] dictionary of [get_system_stats] in [app.py]. *)
Record SystemStats : Type := mkSystemStats {
  total_properties : nat;
  county_distribution : gmap string nat;
  zoning_distribution : gmap string nat;
  average_building_area : Q;
  average_assessed_value : Q;
  stats_last_updated : string
}.

(** The statistics that [get_system_stats] computes over the system's
    catalog; the handler returns them in a JSON response. *)
Definition get_system_stats (self : PropertyAnalysisSystem) (now : string)
  : SystemStats :=
  let db := properties_database self in
  {| total_properties := length db;
     county_distribution := count_by county db;
     zoning_distribution := count_by zoning db;
     average_building_area := average_or_zero (map building_area db);
     average_assessed_value := average_or_zero (map assessed_value db);
     stats_last_updated := now |}.

(* ===================================================================== *)
(** ** Notions used in the statements *)
(* ===================================================================== *)

(** A catalog record that the finder cannot score against the target: it
    is not skipped, and the larger of the two building areas is zero. *)
Definition unscorable (target p : PropertyData) : Prop :=
  property_id p ≠ property_id target
  /\ Qmax (building_area target) (building_area p) == 0.

(** The integer nearest to [y], ties to the even one: the numerator that
    [py_round] computes. *)
Definition round_half_even (y : Q) : Z :=
  let f := Qfloor y in
  match Qcompare (y - inject_Z f) (1 # 2) with
  | Lt => f
  | Gt => (f + 1)%Z
  | Eq => if Z.even f then f else (f + 1)%Z
  end.

(** The value of a condition, with [False] for one that raises. *)
Definition holds (r : outcome bool) : bool :=
  match r with
  | Returned b => b
  | Raised _ => false
  end.

Definition stage_matches {F : Type} (f : option F)
    (cond : F -> gmap string pyval -> outcome bool) (p : gmap string pyval)
  : bool :=
  match f with
  | Some x => holds (cond x p)
  | None => true
  end.

(** A row passes every filter that is present. *)
Definition row_matches (filters : PropertyFilters) (p : gmap string pyval)
  : bool :=
  stage_matches (filter_zoning filters) (row_item_in "zoning") p
  && stage_matches (filter_min_building_area filters)
       (row_item_ge "building_area") p
  && stage_matches (filter_max_building_area filters)
       (row_item_le "building_area") p
  && stage_matches (filter_city filters) (row_item_eq "city") p.

(** The same on a record. *)
Definition record_matches (filters : PropertyFilters) (r : PropertyData)
  : bool :=
  match filter_zoning filters with
  | Some codes => bool_decide (zoning r ∈ codes)
  | None => true
  end
  && match filter_min_building_area filters with
     | Some bound => Qle_bool bound (building_area r)
     | None => true
     end
  && match filter_max_building_area filters with
     | Some bound => Qle_bool (building_area r) bound
     | None => true
     end
  && match filter_city filters with
     | Some c => bool_decide (city r = c)
     | None => true
     end.

(** The window of the limiter is full: the recorded times less than a
    minute old are at least as many as the limit. *)
Definition window_full (self : APIRateLimiter) (now : Z) : Prop :=
  (max_requests_per_minute self
   <= Z.of_nat (length (List.filter (fun t => (now - t <? one_minute)%Z)
                                    (requests_made self))))%Z.

(** The sum of the counts of a distribution: [sum(counts.values())]. *)
Definition counts_total (counts : gmap string nat) : nat :=
  map_fold (fun _ n acc => (n + acc)%nat) 0%nat counts.

(** The number of records whose [key] is [k]. *)
Definition count_with (key : PropertyData -> string) (k : string)
    (db : list PropertyData) : nat :=
  length (List.filter (fun p => bool_decide (key p = k)) db).

(* ===================================================================== *)
(** ** More sample data *)
(* ===================================================================== *)

(** The record that the constructor builds from [test_property]. *)
Definition test_record : PropertyData :=
  {| property_id := "TEST001"; address := "123 Test St"; city := "Chicago";
     county := "Cook County"; state := "IL"; zip_code := "60601";
     latitude := 41.8781; longitude := -87.6298;
     building_area := inject_Z 50000; lot_size := inject_Z 100000;
     year_built := 2000; zoning := "M1"; property_type := "Industrial";
     assessed_value := inject_Z 2000000;
     sale_price := None; sale_date := None; last_updated := sample_now |}.

(** Rows of a mock API: three records as dictionaries, the second one
    with the zoning code [I1] of the mock data. *)
Definition sample_mock_records : list PropertyData :=
  [ sample_target;
    {| property_id := "CO0001"; address := "1200 Devon Ave";
       city := "Elk Grove Village"; county := "Cook County"; state := "IL";
       zip_code := "60007"; latitude := 41.8781; longitude := -87.6298;
       building_area := 25000; lot_size := 50000; year_built := 2000;
       zoning := "I1"; property_type := "Industrial";
       assessed_value := 2500000; sale_price := None; sale_date := None;
       last_updated := "2024-01-01T00:00:00" |};
    sample_twin ].

Definition sample_rows : list (gmap string pyval) :=
  map asdict sample_mock_records.

Definition sample_filters : PropertyFilters :=
  {| filter_zoning := Some ["M1"; "M2"]%string;
     filter_min_building_area := Some 30000;
     filter_max_building_area := None;
     filter_city := None |}.

(** A limiter with a limit of two requests per minute and three recorded
    times (0 s, 30 s and 59 s), asked at 61 s. *)
Definition sample_limiter : APIRateLimiter :=
  {| max_requests_per_minute := 2;
     requests_made := [0; 30000000; 59000000]%Z;
     backoff_time := 1 |}.

Definition sample_clock : Z := 61000000.

Definition sample_api_fields : list string :=
  ["PIN"; "Building_SqFt"; "zip_code"; "__"; "owner"]%string.

(* ===================================================================== *)
(** ** Python builtins *)
(* ===================================================================== *)

(** Unfold the monad of [outcome] in a hypothesis or in the goal. *)
Ltac outcome_simpl_in H :=
  unfold mbind, outcome_bind, mret, outcome_ret in H; simpl in H.
Ltac outcome_simpl :=
  unfold mbind, outcome_bind, mret, outcome_ret; simpl.

Lemma Qltb_true (a b : Q) : Qltb a b = true <-> a < b.
Proof.
  unfold Qltb. rewrite Qlt_alt.
  destruct (a ?= b); split; intros H; congruence.
Qed.

Lemma Qltb_false (a b : Q) : Qltb a b = false <-> b <= a.
Proof.
  rewrite <- not_true_iff_false, Qltb_true. split.
  - apply Qnot_lt_le.
  - intros H1 H2. lra.
Qed.

Lemma py_min_Qmin (a b : Q) : py_min a b == Qmin a b.
Proof.
  unfold py_min. destruct (Qltb b a) eqn:E.
  - apply Qltb_true in E. rewrite Q.min_r; [reflexivity | lra].
  - apply Qltb_false in E. rewrite Q.min_l; [reflexivity | lra].
Qed.

Lemma py_max_Qmax (a b : Q) : py_max a b == Qmax a b.
Proof.
  unfold py_max. destruct (Qltb a b) eqn:E.
  - apply Qltb_true in E. rewrite Q.max_r; [reflexivity | lra].
  - apply Qltb_false in E. rewrite Q.max_l; [reflexivity | lra].
Qed.

#[global] Instance py_min_proper : Proper (Qeq ==> Qeq ==> Qeq) py_min.
Proof. intros a a' Ha b b' Hb. rewrite !py_min_Qmin, Ha, Hb. reflexivity. Qed.

#[global] Instance py_max_proper : Proper (Qeq ==> Qeq ==> Qeq) py_max.
Proof. intros a a' Ha b b' Hb. rewrite !py_max_Qmax, Ha, Hb. reflexivity. Qed.

Lemma py_max_pos (a b : Q) : 0 < a -> 0 < b -> 0 < py_max a b.
Proof. intros Ha Hb. unfold py_max. destruct (Qltb a b); assumption. Qed.

Lemma py_max_zero_bounds (x : Q) : x <= 1 -> 0 <= py_max 0 x <= 1.
Proof.
  intros Hx. unfold py_max. destruct (Qltb 0 x) eqn:E.
  - apply Qltb_true in E. lra.
  - lra.
Qed.

Lemma py_truediv_nonzero (a b : Q) :
  ~ b == 0 -> py_truediv a b = Returned (a / b).
Proof.
  intros Hb. unfold py_truediv.
  destruct (Qeq_bool b 0) eqn:E; [| reflexivity].
  apply Qeq_bool_iff in E. contradiction.
Qed.

Lemma area_ratio_bounds (a b : Q) :
  0 < a -> 0 < b -> 0 <= py_min a b / py_max a b <= 1.
Proof.
  intros Ha Hb.
  assert (Hmax : 0 < py_max a b) by (apply py_max_pos; assumption).
  assert (Hle : py_min a b <= py_max a b).
  { unfold py_min, py_max.
    destruct (Qltb b a) eqn:E1, (Qltb a b) eqn:E2;
      rewrite ?Qltb_true, ?Qltb_false in *; lra. }
  assert (Hmin : 0 < py_min a b).
  { unfold py_min. destruct (Qltb b a); assumption. }
  split.
  - apply Qle_shift_div_l; [assumption | lra].
  - apply Qle_shift_div_r; [assumption | lra].
Qed.

Lemma py_min_comm (a b : Q) : py_min a b == py_min b a.
Proof. rewrite !py_min_Qmin. apply Q.min_comm. Qed.

Lemma py_max_comm (a b : Q) : py_max a b == py_max b a.
Proof. rewrite !py_max_Qmax. apply Q.max_comm. Qed.

(* ===================================================================== *)
(** ** The similarity score *)
(* ===================================================================== *)

Section ScoreProperties.
Variable geodesic_miles : Q * Q -> Q * Q -> Q.

(** What the theorems below use of [geopy]'s distance. *)
Hypothesis geodesic_nonneg : forall p q, 0 <= geodesic_miles p q.
Hypothesis geodesic_sym : forall p q, geodesic_miles p q == geodesic_miles q p.
Hypothesis geodesic_same_point :
  forall p q, p.1 == q.1 -> p.2 == q.2 -> geodesic_miles p q == 0.

Lemma weight_lookups (db : list PropertyData) :
  py_getitem (weight_factors (catalog_agent db)) "building_area" = Returned 0.30
  /\ py_getitem (weight_factors (catalog_agent db)) "location" = Returned 0.10
  /\ py_getitem (weight_factors (catalog_agent db)) "age" = Returned 0.15.
Proof. repeat split; reflexivity. Qed.

(** With positive building areas the score is returned, and it is
    [score_value]. *)
Lemma calculate_similarity_score_returns (db : list PropertyData)
    (target comp : PropertyData) :
  0 < building_area target -> 0 < building_area comp ->
  calculate_similarity_score geodesic_miles (catalog_agent db) target comp
  = Returned (score_value geodesic_miles target comp).
Proof.
  intros Ht Hc. unfold calculate_similarity_score.
  rewrite py_truediv_nonzero.
  - destruct (weight_lookups db) as (-> & -> & ->). reflexivity.
  - pose proof (py_max_pos _ _ Ht Hc). lra.
Qed.

Lemma score_value_bounds (target comp : PropertyData) :
  0 < building_area target -> 0 < building_area comp ->
  0 <= score_value geodesic_miles target comp <= 0.55.
Proof using geodesic_nonneg.
  intros Ht Hc. unfold score_value.
  pose proof (area_ratio_bounds _ _ Ht Hc) as Harea.
  set (d := geodesic_miles _ _).
  assert (Hloc : 0 <= py_max 0 (1 - d / 10) <= 1).
  { apply py_max_zero_bounds.
    assert (0 <= d / 10).
    { apply Qle_shift_div_l; [lra |]. subst d.
      pose proof (geodesic_nonneg (latitude target, longitude target)
                    (latitude comp, longitude comp)). lra. }
    lra. }
  set (n := Z.abs _).
  assert (Hage : 0 <= py_max 0 (1 - inject_Z n / 50) <= 1).
  { apply py_max_zero_bounds.
    assert (0 <= inject_Z n / 50).
    { apply Qle_shift_div_l; [lra |].
      assert (inject_Z 0 <= inject_Z n)
        by (rewrite <- Zle_Qle; subst n; apply Z.abs_nonneg).
      change (inject_Z 0) with 0 in *. lra. }
    lra. }
  lra.
Qed.

(** C1. For records with strictly positive building areas the score is
    returned and equals
    [area_ratio*0.30 + location_score*0.10 + age_score*0.15], where
    [area_ratio] is the smaller building area over the larger,
    [location_score = max(0, 1 - distance_miles/10)] and
    [age_score = max(0, 1 - |year difference|/50)]; when the two records
    have the same coordinates, building area and year, the score is 0.55. *)
Theorem similarity_score_weighted_sum (db : list PropertyData)
    (target comp : PropertyData) :
  0 < building_area target -> 0 < building_area comp ->
  exists s,
    calculate_similarity_score geodesic_miles (catalog_agent db) target comp
    = Returned s
    /\ s == Qmin (building_area target) (building_area comp)
             / Qmax (building_area target) (building_area comp) * 0.30
           + Qmax 0 (1 - geodesic_miles (latitude target, longitude target)
                                        (latitude comp, longitude comp) / 10)
             * 0.10
           + Qmax 0 (1 - inject_Z (Z.abs (year_built target - year_built comp))
                         / 50) * 0.15
    /\ (latitude target == latitude comp ->
        longitude target == longitude comp ->
        building_area target == building_area comp ->
        year_built target = year_built comp ->
        s == 0.55).
Proof using geodesic_same_point.
  intros Ht Hc. exists (score_value geodesic_miles target comp).
  split; [apply calculate_similarity_score_returns; assumption |].
  split.
  - unfold score_value. rewrite py_min_Qmin, !py_max_Qmax. reflexivity.
  - intros Hlat Hlon Harea Hyear. unfold score_value.
    rewrite (geodesic_same_point (latitude target, longitude target)
               (latitude comp, longitude comp) Hlat Hlon).
    rewrite Hyear, Z.sub_diag. simpl Z.abs.
    assert (Hr : py_min (building_area target) (building_area comp)
                 / py_max (building_area target) (building_area comp) == 1).
    { rewrite py_min_Qmin, py_max_Qmax.
      rewrite Q.min_l, Q.max_l by lra.
      field. lra. }
    rewrite Hr. reflexivity.
Qed.

(** C4. For records with strictly positive building areas the score lies
    in the closed interval from 0 to 1. *)
Theorem similarity_score_in_unit_interval (db : list PropertyData)
    (a b : PropertyData) :
  0 < building_area a -> 0 < building_area b ->
  exists s,
    calculate_similarity_score geodesic_miles (catalog_agent db) a b
    = Returned s
    /\ 0 <= s <= 1.
Proof using geodesic_nonneg.
  intros Ha Hb. exists (score_value geodesic_miles a b).
  split; [apply calculate_similarity_score_returns; assumption |].
  pose proof (score_value_bounds a b Ha Hb). lra.
Qed.

(** C5. The score is symmetric: for records with strictly positive
    building areas, scoring [a] against [b] and [b] against [a] return
    equal numbers. *)
Theorem similarity_score_symmetric (db : list PropertyData)
    (a b : PropertyData) :
  0 < building_area a -> 0 < building_area b ->
  exists s1 s2,
    calculate_similarity_score geodesic_miles (catalog_agent db) a b
    = Returned s1
    /\ calculate_similarity_score geodesic_miles (catalog_agent db) b a
       = Returned s2
    /\ s1 == s2.
Proof using geodesic_sym.
  intros Ha Hb.
  exists (score_value geodesic_miles a b), (score_value geodesic_miles b a).
  split; [apply calculate_similarity_score_returns; assumption |].
  split; [apply calculate_similarity_score_returns; assumption |].
  unfold score_value.
  rewrite (py_min_comm (building_area a)), (py_max_comm (building_area a)).
  rewrite (geodesic_sym (latitude a, longitude a)).
  replace (Z.abs (year_built a - year_built b))
    with (Z.abs (year_built b - year_built a)) by lia.
  reflexivity.
Qed.
End ScoreProperties.

(* ===================================================================== *)
(** ** Sorting and slicing *)
(* ===================================================================== *)

Section SortProperties.
Context {A : Type} (key : A -> Q).

Lemma insert_desc_perm (x : A) (l : list A) : insert_desc key x l ≡ₚ x :: l.
Proof.
  induction l as [| y l IH]; simpl; [reflexivity |].
  destruct (Qltb (key x) (key y)); [| reflexivity].
  rewrite IH. apply Permutation_swap.
Qed.

Lemma list_sort_reverse_perm (l : list A) : list_sort_reverse key l ≡ₚ l.
Proof.
  induction l as [| x l IH]; simpl; [reflexivity |].
  rewrite insert_desc_perm, IH. reflexivity.
Qed.

Lemma list_sort_reverse_length (l : list A) :
  length (list_sort_reverse key l) = length l.
Proof. apply Permutation_length, list_sort_reverse_perm. Qed.

Lemma insert_desc_sorted (x : A) (l : list A) :
  StronglySorted (key_ge key) l ->
  StronglySorted (key_ge key) (insert_desc key x l).
Proof.
  induction 1 as [| y l Hl IH Hy]; simpl.
  - repeat constructor.
  - destruct (Qltb (key x) (key y)) eqn:E.
    + apply Qltb_true in E. constructor; [exact IH |].
      rewrite insert_desc_perm. constructor; [| exact Hy].
      unfold key_ge. lra.
    + apply Qltb_false in E. constructor; [constructor; assumption |].
      constructor; [exact E |].
      eapply Forall_impl; [exact Hy |].
      unfold key_ge. intros z Hz. lra.
Qed.

Lemma list_sort_reverse_sorted (l : list A) :
  StronglySorted (key_ge key) (list_sort_reverse key l).
Proof.
  induction l as [| x l IH]; simpl; [constructor |].
  apply insert_desc_sorted, IH.
Qed.

(** Stability: the items of one key keep their order. *)
Lemma insert_desc_filter_key (s : Q) (x : A) (l : list A) :
  List.filter (fun c => Qeq_bool (key c) s) (insert_desc key x l)
  = List.filter (fun c => Qeq_bool (key c) s) (x :: l).
Proof.
  induction l as [| y l IH]; [reflexivity |].
  simpl insert_desc. destruct (Qltb (key x) (key y)) eqn:E; [| reflexivity].
  apply Qltb_true in E. simpl in *. rewrite IH.
  destruct (Qeq_bool (key x) s) eqn:Ex; [| reflexivity].
  destruct (Qeq_bool (key y) s) eqn:Ey; [| reflexivity].
  apply Qeq_bool_iff in Ex, Ey. lra.
Qed.

Lemma list_sort_reverse_stable (s : Q) (l : list A) :
  List.filter (fun c => Qeq_bool (key c) s) (list_sort_reverse key l)
  = List.filter (fun c => Qeq_bool (key c) s) l.
Proof.
  induction l as [| x l IH]; [reflexivity |].
  simpl list_sort_reverse. rewrite insert_desc_filter_key.
  simpl. rewrite IH. reflexivity.
Qed.

Lemma py_slice_to_firstn (k : Z) (l : list A) :
  exists n, py_slice_to k l = firstn n l.
Proof. unfold py_slice_to. destruct (0 <=? k)%Z; eauto. Qed.

Lemma py_slice_to_length (k : Z) (l : list A) :
  (0 <= k)%Z ->
  Z.of_nat (length (py_slice_to k l)) = Z.min k (Z.of_nat (length l)).
Proof.
  intros Hk. unfold py_slice_to.
  destruct (Z.leb_spec 0 k); [| lia].
  rewrite length_firstn. lia.
Qed.

Lemma firstn_sorted (R : A -> A -> Prop) (n : nat) (l : list A) :
  StronglySorted R l -> StronglySorted R (firstn n l).
Proof.
  intros H. revert n. induction H as [| x l Hl IH Hx]; intros n.
  - rewrite firstn_nil. constructor.
  - destruct n as [| n]; simpl; constructor; [apply IH |].
    rewrite <- (firstn_skipn n l) in Hx.
    apply Forall_app in Hx. apply Hx.
Qed.

Lemma firstn_filter_prefix (f : A -> bool) (n : nat) (l : list A) :
  List.filter f (firstn n l) `prefix_of` List.filter f l.
Proof.
  exists (List.filter f (skipn n l)).
  rewrite <- List.filter_app, firstn_skipn. reflexivity.
Qed.

Lemma firstn_Forall (P : A -> Prop) (n : nat) (l : list A) :
  Forall P l -> Forall P (firstn n l).
Proof.
  intros H. rewrite <- (firstn_skipn n l) in H.
  apply Forall_app in H. apply H.
Qed.
End SortProperties.

(* ===================================================================== *)
(** ** The comparable finder *)
(* ===================================================================== *)

Section FinderProperties.
Variable geodesic_miles : Q * Q -> Q * Q -> Q.


Lemma py_for_cons {A S : Type} (x : A) (xs : list A)
    (body : S -> A -> outcome S) (s : S) :
  py_for (x :: xs) body s
  = match body s x with
    | Returned s' => py_for xs body s'
    | Raised e => Raised e
    end.
Proof. reflexivity. Qed.

Lemma find_comparables_step_other (self : ComparableDiscoveryAgent)
    (target prop : PropertyData) (results : list (PropertyData * Q)) :
  property_id prop ≠ property_id target ->
  find_comparables_step geodesic_miles self target results prop
  = match calculate_similarity_score geodesic_miles self target prop with
    | Returned s => Returned (results ++ [(prop, s)])
    | Raised e => Raised e
    end.
Proof.
  intros H. unfold find_comparables_step.
  rewrite (bool_decide_eq_true_2 _ H). reflexivity.
Qed.

Lemma find_comparables_step_same (self : ComparableDiscoveryAgent)
    (target prop : PropertyData) (results : list (PropertyData * Q)) :
  property_id prop = property_id target ->
  find_comparables_step geodesic_miles self target results prop
  = Returned results.
Proof.
  intros H. unfold find_comparables_step.
  rewrite bool_decide_eq_false_2; [reflexivity |].
  intros Hne. apply Hne, H.
Qed.

Lemma other_properties_cons_other (target p : PropertyData)
    (db : list PropertyData) :
  property_id p ≠ property_id target ->
  other_properties target (p :: db) = p :: other_properties target db.
Proof.
  intros H. unfold other_properties. simpl.
  rewrite (bool_decide_eq_true_2 _ H). reflexivity.
Qed.

Lemma other_properties_cons_same (target p : PropertyData)
    (db : list PropertyData) :
  property_id p = property_id target ->
  other_properties target (p :: db) = other_properties target db.
Proof.
  intros H. unfold other_properties. simpl.
  rewrite bool_decide_eq_false_2; [reflexivity |].
  intros Hne. apply Hne, H.
Qed.

Lemma find_loop_inv (self : ComparableDiscoveryAgent) (target : PropertyData)
    (db : list PropertyData) (acc res : list (PropertyData * Q)) :
  py_for db (find_comparables_step geodesic_miles self target) acc
  = Returned res ->
  exists scored,
    res = acc ++ scored
    /\ map fst scored = other_properties target db
    /\ Forall (fun c => calculate_similarity_score geodesic_miles self target
                          c.1 = Returned c.2) scored.
Proof.
  revert acc. induction db as [| p db IH]; intros acc H.
  - inversion H; subst. exists []. rewrite app_nil_r.
    split; [reflexivity | split; [reflexivity | constructor]].
  - rewrite py_for_cons in H.
    destruct (decide (property_id p = property_id target)) as [E | E].
    + rewrite find_comparables_step_same in H by exact E.
      rewrite other_properties_cons_same by exact E. apply IH, H.
    + rewrite find_comparables_step_other in H by exact E.
      rewrite other_properties_cons_other by exact E.
      destruct (calculate_similarity_score geodesic_miles self target p)
        as [s |] eqn:Es; [| discriminate].
      apply IH in H as (scored & -> & Hfst & Hsc).
      exists ((p, s) :: scored). rewrite <- app_assoc. simpl.
      split; [reflexivity | split; [f_equal; exact Hfst |]].
      constructor; assumption.
Qed.

Lemma find_comparables_inv (self : ComparableDiscoveryAgent)
    (target : PropertyData) (k : Z) (l : list (PropertyData * Q)) :
  find_comparables geodesic_miles self target k = Returned l ->
  exists scored,
    scored_others geodesic_miles self target scored
    /\ l = py_slice_to k (list_sort_reverse snd scored).
Proof.
  unfold find_comparables. intros H.
  destruct (py_for _ _ _) as [res |] eqn:E; outcome_simpl_in H;
    [| discriminate].
  apply find_loop_inv in E as (scored & -> & Hfst & Hsc).
  inversion H; subst. exists scored. split; [split; assumption | reflexivity].
Qed.

(** With positive building areas throughout, the loop ends normally. *)
Lemma find_loop_returns (db0 db : list PropertyData) (target : PropertyData)
    (acc : list (PropertyData * Q)) :
  0 < building_area target ->
  Forall (fun p => 0 < building_area p) db ->
  py_for db (find_comparables_step geodesic_miles (catalog_agent db0) target)
    acc
  = Returned (acc ++ map (fun p => (p, score_value geodesic_miles target p))
                         (other_properties target db)).
Proof.
  intros Ht Hdb. revert acc.
  induction Hdb as [| p db Hp Hdb IH]; intros acc.
  - simpl. rewrite app_nil_r. reflexivity.
  - rewrite py_for_cons.
    destruct (decide (property_id p = property_id target)) as [E | E].
    + rewrite find_comparables_step_same by exact E.
      rewrite other_properties_cons_same by exact E. apply IH.
    + rewrite find_comparables_step_other by exact E.
      rewrite other_properties_cons_other by exact E.
      rewrite calculate_similarity_score_returns by assumption.
      rewrite IH, <- app_assoc. reflexivity.
Qed.

Lemma find_comparables_returns (db : list PropertyData)
    (target : PropertyData) (k : Z) :
  0 < building_area target ->
  Forall (fun p => 0 < building_area p) db ->
  find_comparables geodesic_miles (catalog_agent db) target k
  = Returned (py_slice_to k (list_sort_reverse snd
      (map (fun p => (p, score_value geodesic_miles target p))
           (other_properties target db)))).
Proof.
  intros Ht Hdb. unfold find_comparables.
  change (properties_db (catalog_agent db)) with db.
  rewrite find_loop_returns by assumption. reflexivity.
Qed.

Lemma other_properties_length (target : PropertyData) (db : list PropertyData) :
  (length (other_properties target db)
   + length (List.filter
       (fun p => bool_decide (property_id p = property_id target)) db)
   = length db)%nat.
Proof.
  unfold other_properties. induction db as [| p db IH]; simpl; [reflexivity |].
  destruct (decide (property_id p = property_id target)) as [E | E].
  - rewrite (bool_decide_eq_true_2 _ E).
    rewrite bool_decide_eq_false_2 by (intros H; apply H, E).
    simpl. lia.
  - rewrite (bool_decide_eq_false_2 _ E), (bool_decide_eq_true_2 _ E).
    simpl. lia.
Qed.

(** C3 (amended). With positive building areas and [max_results >= 0], the
    finder returns a list whose length is the smaller of [max_results] and
    the number of catalog records whose identifier differs from the
    target's; when exactly one catalog record carries the target's
    identifier this is [min(max_results, catalog_size - 1)]. *)
Theorem find_comparables_length (db : list PropertyData)
    (target : PropertyData) (max_results : Z) :
  (0 <= max_results)%Z ->
  0 < building_area target ->
  Forall (fun p => 0 < building_area p) db ->
  exists l,
    find_comparables geodesic_miles (catalog_agent db) target max_results
    = Returned l
    /\ Z.of_nat (length l)
       = Z.min max_results (Z.of_nat (length (other_properties target db)))
    /\ (length (List.filter
          (fun p => bool_decide (property_id p = property_id target)) db)
        = 1%nat ->
        Z.of_nat (length l)
        = Z.min max_results (Z.of_nat (length db) - 1)).
Proof.
  intros Hk Ht Hdb. eexists. split.
  - apply find_comparables_returns; assumption.
  - rewrite py_slice_to_length by assumption.
    rewrite list_sort_reverse_length, length_map.
    split; [reflexivity |].
    intros H1. pose proof (other_properties_length target db). lia.
Qed.

(** C6. No record returned by the finder carries the target's
    identifier. *)
Theorem find_comparables_excludes_target (self : ComparableDiscoveryAgent)
    (target : PropertyData) (max_results : Z)
    (l : list (PropertyData * Q)) :
  find_comparables geodesic_miles self target max_results = Returned l ->
  Forall (fun c => property_id c.1 ≠ property_id target) l.
Proof.
  intros H. apply find_comparables_inv in H as (scored & [Hfst _] & ->).
  destruct (py_slice_to_firstn max_results (list_sort_reverse snd scored))
    as [n ->].
  apply firstn_Forall. rewrite list_sort_reverse_perm.
  assert (Hall : Forall (fun p => property_id p ≠ property_id target)
                   (map fst scored)).
  { rewrite Hfst. unfold other_properties. apply List.Forall_forall.
    intros p Hp. apply List.filter_In in Hp as [_ Hp].
    apply bool_decide_eq_true in Hp. exact Hp. }
  apply List.Forall_forall. intros c Hc.
  rewrite List.Forall_forall in Hall. apply Hall.
  apply List.in_map, Hc.
Qed.

(** C7. The list returned by the finder is ordered by non-increasing
    score, and ties keep catalog order: for every score [s], the returned
    entries with score [s] are, in the same order, an initial segment of
    the catalog's entries (other than the target) with score [s]. *)
Theorem find_comparables_sorted_stable (self : ComparableDiscoveryAgent)
    (target : PropertyData) (max_results : Z)
    (l : list (PropertyData * Q)) :
  find_comparables geodesic_miles self target max_results = Returned l ->
  StronglySorted (fun x y => y.2 <= x.2) l
  /\ exists scored,
       scored_others geodesic_miles self target scored
       /\ forall s, with_score s l `prefix_of` with_score s scored.
Proof.
  intros H. apply find_comparables_inv in H as (scored & Hsc & ->).
  destruct (py_slice_to_firstn max_results (list_sort_reverse snd scored))
    as [n ->].
  split.
  - apply firstn_sorted. apply (list_sort_reverse_sorted snd).
  - exists scored. split; [exact Hsc |]. intros s. unfold with_score.
    rewrite <- (list_sort_reverse_stable snd s scored).
    apply firstn_filter_prefix.
Qed.
End FinderProperties.

(* ===================================================================== *)
(** ** Records built from dictionaries *)
(* ===================================================================== *)

Lemma kw_str_returned (d : gmap string pyval) (k s : string) :
  kw_str d k = Returned s -> d !! k = Some (PyStr s).
Proof.
  unfold kw_str. destruct (d !! k) as [[| | | | | |] |]; intros H; congruence.
Qed.

Lemma kw_float_returned (d : gmap string pyval) (k : string) (q : Q) :
  kw_float d k = Returned q -> d !! k ≫= pyval_number = Some q.
Proof.
  unfold kw_float. destruct (d !! k) as [v |]; simpl; [| discriminate].
  destruct (pyval_number v); intros H; congruence.
Qed.

Lemma kw_int_returned (d : gmap string pyval) (k : string) (z : Z) :
  kw_int d k = Returned z -> d !! k = Some (PyInt z).
Proof.
  unfold kw_int. destruct (d !! k) as [[| | | | | |] |]; intros H; congruence.
Qed.

(** One keyword of a constructor call that returns: its value is named
    and the proof goes on. *)
Ltac kw_case H m :=
  let E := fresh "E" in
  destruct m eqn:E;
  [ outcome_simpl_in H | outcome_simpl_in H; discriminate ].

Ltac kw_cases H d :=
  unfold PropertyData_from_kwargs in H;
  destruct (negb (bool_decide _)) in H; [discriminate |];
  destruct (negb (forallb _ _)) in H; [discriminate |];
  kw_case H (kw_str d "property_id");
  kw_case H (kw_str d "address");
  kw_case H (kw_str d "city");
  kw_case H (kw_str d "county");
  kw_case H (kw_str d "state");
  kw_case H (kw_str d "zip_code");
  kw_case H (kw_float d "latitude");
  kw_case H (kw_float d "longitude");
  kw_case H (kw_float d "building_area");
  kw_case H (kw_float d "lot_size");
  kw_case H (kw_int d "year_built");
  kw_case H (kw_str d "zoning");
  kw_case H (kw_str d "property_type");
  kw_case H (kw_float d "assessed_value");
  kw_case H (kw_opt_float d "sale_price");
  kw_case H (kw_opt_str d "sale_date");
  kw_case H (kw_opt_str d "last_updated").

Lemma PropertyData_from_kwargs_required (now : string) (d : gmap string pyval)
    (t : PropertyData) :
  PropertyData_from_kwargs now d = Returned t ->
  Forall (fun k => is_Some (d !! k)) PropertyData_required.
Proof.
  intros H. kw_cases H d.
  repeat match goal with
  | E : kw_str _ _ = Returned _ |- _ => apply kw_str_returned in E
  | E : kw_int _ _ = Returned _ |- _ => apply kw_int_returned in E
  | E : kw_float _ _ = Returned _ |- _ => apply kw_float_returned in E
  end.
  unfold PropertyData_required.
  repeat (constructor;
    [first [ eexists; eassumption
           | match goal with
             | E : ?x ≫= pyval_number = Some _ |- is_Some ?x =>
                 destruct x; [eexists; reflexivity | discriminate]
             end ] |]).
  constructor.
Qed.

Lemma PropertyData_from_kwargs_area (now : string) (d : gmap string pyval)
    (t : PropertyData) :
  PropertyData_from_kwargs now d = Returned t ->
  d !! "building_area"%string ≫= pyval_number = Some (building_area t).
Proof.
  intros H. kw_cases H d. inversion H; subst; simpl.
  apply kw_float_returned. assumption.
Qed.

Lemma PropertyData_from_kwargs_missing (now : string) (d : gmap string pyval)
    (k : string) :
  k ∈ PropertyData_required -> d !! k = None ->
  PropertyData_from_kwargs now d = Raised TypeError.
Proof.
  intros Hk Hnone. unfold PropertyData_from_kwargs.
  destruct (negb (bool_decide _)); [reflexivity |].
  assert (Hreq : forallb (fun k => bool_decide (is_Some (d !! k)))
                   PropertyData_required = false).
  { apply not_true_iff_false. intros Hall.
    rewrite List.forallb_forall in Hall.
    apply list_elem_of_In in Hk. apply Hall in Hk.
    apply bool_decide_eq_true in Hk. rewrite Hnone in Hk.
    destruct Hk as [v Hv]. discriminate. }
  rewrite Hreq. reflexivity.
Qed.

(** The constructor undoes [asdict]. *)
Lemma asdict_roundtrip (now : string) (p : PropertyData) :
  PropertyData_from_kwargs now (asdict p) = Returned p.
Proof.
  destruct p as [pid addr cty cnty st zip lat lon area lot year zon ptype
                 val price date stamp].
  destruct price as [price |], date as [date |]; vm_compute; reflexivity.
Qed.

Lemma asdict_nonempty (p : PropertyData) : asdict p ≠ ∅.
Proof.
  intros H. apply (f_equal (fun m => m !! "city"%string)) in H.
  destruct p. vm_compute in H. discriminate.
Qed.

Lemma Qle_bool_false (a b : Q) : Qle_bool a b = false -> b < a.
Proof.
  intros E. apply Qnot_le_lt. intros Hle. apply Qle_bool_iff in Hle.
  congruence.
Qed.

Lemma Qle_bool_false_iff (a b : Q) : Qle_bool a b = false <-> b < a.
Proof.
  split; [apply Qle_bool_false |]. intros Hlt.
  destruct (Qle_bool a b) eqn:E; [| reflexivity].
  apply Qle_bool_iff in E. apply Qlt_not_le in Hlt. contradiction.
Qed.

(** A finite building area that the validator accepts is positive. *)
Lemma validated_area_positive (d : gmap string pyval) (area : Q) :
  _validate_property_data d = true ->
  d !! "building_area"%string ≫= pyval_number = Some area ->
  0 < area.
Proof.
  unfold _validate_property_data, validate_ranges, py_getitem.
  destruct (negb _); [discriminate |].
  destruct (d !! "building_area"%string) as [v |]; [| discriminate].
  intros H Harea. simpl in Harea.
  destruct v; simpl in Harea; try discriminate;
    injection Harea as <-; outcome_simpl_in H;
    destruct (Qle_bool _ 0) eqn:E; try discriminate;
    apply Qle_bool_false; exact E.
Qed.

(* ===================================================================== *)
(** ** The analysis facade *)
(* ===================================================================== *)

Section FacadeProperties.
Variable geodesic_miles : Q * Q -> Q * Q -> Q.
Variable now : string.

Hypothesis geodesic_nonneg : forall p q, 0 <= geodesic_miles p q.

Lemma find_unknown_id (id : string) (db : list PropertyData) :
  Forall (fun p => property_id p ≠ id) db ->
  List.find (fun p => bool_decide (property_id p = id)) db = None.
Proof.
  induction 1 as [| p db Hp Hdb IH]; simpl; [reflexivity |].
  rewrite (bool_decide_eq_false_2 _ Hp). exact IH.
Qed.

Lemma truthy_str_nonempty (id : string) :
  id ≠ ""%string -> truthy_str (Some id) = Some id.
Proof.
  intros H. unfold truthy_str. rewrite (bool_decide_eq_false_2 _ H).
  reflexivity.
Qed.

Lemma truthy_str_Some (pid : option string) (id : string) :
  truthy_str pid = Some id -> pid = Some id.
Proof.
  unfold truthy_str. destruct pid as [s |]; [| discriminate].
  destruct (bool_decide (s = ""%string)); congruence.
Qed.

Lemma truthy_dict_Some (o : option (gmap string pyval))
    (d : gmap string pyval) :
  truthy_dict o = Some d -> o = Some d.
Proof.
  unfold truthy_dict. destruct o as [d' |]; [| discriminate].
  destruct (bool_decide (d' = ∅)); congruence.
Qed.

Lemma truthy_dict_nonempty (d : gmap string pyval) :
  d ≠ ∅ -> truthy_dict (Some d) = Some d.
Proof.
  intros H. unfold truthy_dict. rewrite (bool_decide_eq_false_2 _ H).
  reflexivity.
Qed.

Lemma confidence_label_low (s : Q) :
  s <= 0.55 -> confidence_label s = "Low"%string.
Proof.
  intros H. unfold confidence_label.
  assert (H8 : Qltb 0.8 s = false) by (apply Qltb_false; lra).
  assert (H6 : Qltb 0.6 s = false) by (apply Qltb_false; lra).
  rewrite H8, H6. reflexivity.
Qed.

(** The comparables reported for a target with positive building area over
    a catalog with positive building areas are all labelled ['Low']. *)
Lemma reported_comparables_low (db : list PropertyData) (target : PropertyData)
    (comps : list (PropertyData * Q)) :
  0 < building_area target ->
  Forall (fun p => 0 < building_area p) db ->
  find_comparables geodesic_miles (catalog_agent db) target 5
  = Returned comps ->
  Forall (fun c => confidence_level c = "Low"%string)
         (map comparable_data comps).
Proof using geodesic_nonneg.
  intros Ht Hdb H. rewrite find_comparables_returns in H by assumption.
  inversion H as [Hcomps]. clear H Hcomps.
  apply List.Forall_map.
  match goal with
  | |- Forall _ (py_slice_to ?k ?l) =>
      destruct (py_slice_to_firstn k l) as [n ->]
  end.
  apply firstn_Forall. rewrite list_sort_reverse_perm.
  apply List.Forall_map. unfold other_properties.
  apply List.Forall_forall. intros p Hp.
  apply List.filter_In in Hp as [Hp _].
  rewrite List.Forall_forall in Hdb. simpl.
  apply confidence_label_low.
  apply (score_value_bounds geodesic_miles geodesic_nonneg); auto.
Qed.

(** C2 (amended). For an ad-hoc record no validation takes place: the
    facade builds the record with the constructor of [PropertyData] and
    hands it to the finder as it is.  Every record with fields of the
    annotated types, whatever their values (any [building_area],
    [latitude] and [longitude], also ones that [_validate_property_data]
    rejects), is answered with the result assembled from the finder's
    answer, and so is every dictionary from which the constructor builds a
    record; a dictionary that lacks a required field raises the
    constructor's [TypeError]. *)
Theorem analyze_by_record_unvalidated (self : PropertyAnalysisSystem)
    (pid : option string) :
  truthy_str pid = None ->
  (forall p : PropertyData,
     analyze_property_comparables geodesic_miles now self pid
       (Some (asdict p))
     = (comps ← find_comparables geodesic_miles (comparable_discovery self)
                  p 5;
        Returned (analysis_results now p comps)))
  /\ (forall data target,
        data ≠ ∅ ->
        PropertyData_from_kwargs now data = Returned target ->
        analyze_property_comparables geodesic_miles now self pid (Some data)
        = (comps ← find_comparables geodesic_miles
                     (comparable_discovery self) target 5;
           Returned (analysis_results now target comps)))
  /\ (forall data k,
        data ≠ ∅ ->
        k ∈ PropertyData_required -> data !! k = None ->
        analyze_property_comparables geodesic_miles now self pid (Some data)
        = Raised TypeError).
Proof.
  intros Hpid. unfold analyze_property_comparables. rewrite Hpid.
  split; [| split].
  - intros p. rewrite (truthy_dict_nonempty _ (asdict_nonempty p)).
    rewrite asdict_roundtrip. reflexivity.
  - intros data target Hdata Hctor.
    rewrite (truthy_dict_nonempty _ Hdata), Hctor. reflexivity.
  - intros data k Hdata Hk Hnone.
    rewrite (truthy_dict_nonempty _ Hdata).
    rewrite (PropertyData_from_kwargs_missing now data k Hk Hnone).
    reflexivity.
Qed.

(** C8. Called with neither an identifier nor a record, the facade returns
    the error dictionary ['Either property_id or property_data must be
    provided']; it does not raise. *)
Theorem analyze_without_selector (self : PropertyAnalysisSystem) :
  analyze_property_comparables geodesic_miles now self None None
  = Returned argument_error.
Proof. reflexivity. Qed.

(** C9 (amended). For every non-empty identifier that no catalog record
    carries, analysis by that identifier returns the error dictionary
    ['Property with ID ... not found']. *)
Theorem analyze_unknown_id (self : PropertyAnalysisSystem) (id : string)
    (property_data : option (gmap string pyval)) :
  id ≠ ""%string ->
  Forall (fun p => property_id p ≠ id) (properties_database self) ->
  analyze_property_comparables geodesic_miles now self (Some id) property_data
  = Returned (not_found_error id).
Proof.
  intros Hid Hdb. unfold analyze_property_comparables.
  rewrite (truthy_str_nonempty _ Hid), (find_unknown_id _ _ Hdb).
  reflexivity.
Qed.

(** C10. Over a catalog of records with positive building area, and for an
    ad-hoc record that passes [_validate_property_data], every comparable
    in the result of an analysis carries the confidence level ['Low']. *)
Theorem analyze_confidence_always_low (db : list PropertyData)
    (pid : option string) (property_data : option (gmap string pyval))
    (target : PropertyData) (comps : list ComparableData)
    (summary : AnalysisSummary) :
  Forall (fun p => 0 < building_area p) db ->
  (forall data, property_data = Some data ->
                _validate_property_data data = true) ->
  analyze_property_comparables geodesic_miles now (catalog_system db)
    pid property_data
  = Returned (ResultsDict target comps summary) ->
  Forall (fun c => confidence_level c = "Low"%string) comps.
Proof using geodesic_nonneg.
  intros Hdb Hvalid. unfold analyze_property_comparables.
  change (comparable_discovery (catalog_system db)) with (catalog_agent db).
  change (properties_database (catalog_system db)) with db.
  assert (Hreport : forall t,
    0 < building_area t ->
    (comps0 ← find_comparables geodesic_miles (catalog_agent db) t 5;
     Returned (analysis_results now t comps0))
    = Returned (ResultsDict target comps summary) ->
    Forall (fun c => confidence_level c = "Low"%string) comps).
  { intros t Ht H.
    destruct (find_comparables geodesic_miles (catalog_agent db) t 5)
      as [cs |] eqn:E; outcome_simpl_in H; [| discriminate].
    unfold analysis_results in H. inversion H; subst.
    eapply reported_comparables_low; eassumption. }
  destruct (truthy_str pid) as [id |] eqn:Epid.
  - destruct (List.find _ db) as [t |] eqn:Efind; [| discriminate].
    apply List.find_some in Efind as [Hin _].
    rewrite List.Forall_forall in Hdb. apply Hreport, Hdb, Hin.
  - destruct (truthy_dict property_data) as [data |] eqn:Edata;
      [| discriminate].
    apply truthy_dict_Some in Edata. apply Hvalid in Edata.
    destruct (PropertyData_from_kwargs now data) as [t |] eqn:Et;
      outcome_simpl; [| discriminate].
    apply Hreport.
    apply PropertyData_from_kwargs_area in Et.
    exact (validated_area_positive data _ Edata Et).
Qed.
End FacadeProperties.

(* ===================================================================== *)
(** ** The engine on the sample data *)
(* ===================================================================== *)

Lemma grid_miles_nonneg (p q : Q * Q) : 0 <= grid_miles p q.
Proof.
  unfold grid_miles.
  pose proof (Qabs_nonneg (p.1 - q.1)).
  pose proof (Qabs_nonneg (p.2 - q.2)). lra.
Qed.

Lemma grid_miles_sym (p q : Q * Q) : grid_miles p q == grid_miles q p.
Proof.
  unfold grid_miles.
  rewrite (Qabs_Qminus p.1 q.1), (Qabs_Qminus p.2 q.2). reflexivity.
Qed.

Lemma grid_miles_same_point (p q : Q * Q) :
  p.1 == q.1 -> p.2 == q.2 -> grid_miles p q == 0.
Proof.
  intros H1 H2. unfold grid_miles.
  assert (E1 : p.1 - q.1 == 0) by lra.
  assert (E2 : p.2 - q.2 == 0) by lra.
  rewrite E1, E2. reflexivity.
Qed.

Lemma sample_catalog_positive :
  Forall (fun p => 0 < building_area p) sample_catalog.
Proof. repeat constructor. Qed.

Lemma sample_comparables_found :
  find_comparables grid_miles (catalog_agent sample_catalog) sample_target 5
  = Returned sample_comparables.
Proof. vm_compute. reflexivity. Qed.

(** Half the building area, all else equal: 0.5*0.30 + 0.10 + 0.15. *)
Example score_half_area :
  exists s,
    calculate_similarity_score grid_miles (catalog_agent sample_catalog)
      sample_target sample_candidate = Returned s
    /\ s == 0.40.
Proof. eexists. split; [vm_compute; reflexivity | reflexivity]. Qed.

(** Fifteen miles apart, same building area and year: 0.30 + 0 + 0.15. *)
Example score_beyond_cutoff :
  exists s,
    calculate_similarity_score grid_miles (catalog_agent sample_catalog)
      sample_target (sample_property "CO0002" 42.0955 (-87.6298) 50000 2000)
    = Returned s
    /\ s == 0.45.
Proof. eexists. split; [vm_compute; reflexivity | reflexivity]. Qed.

Lemma invalid_test_property_nonempty : invalid_test_property ≠ ∅.
Proof.
  intros H. apply (f_equal (fun m => m !! "city"%string)) in H.
  vm_compute in H. discriminate.
Qed.

(** The weighted sum on two catalog records at the same place, with the
    same building area and year: the score is 0.55. *)
Lemma similarity_score_weighted_sum_witness :
  0 < building_area sample_target
  /\ 0 < building_area sample_twin
  /\ exists s,
       calculate_similarity_score grid_miles (catalog_agent sample_catalog)
         sample_target sample_twin = Returned s
       /\ s == Qmin (building_area sample_target) (building_area sample_twin)
                / Qmax (building_area sample_target)
                       (building_area sample_twin) * 0.30
              + Qmax 0 (1 - grid_miles
                              (latitude sample_target, longitude sample_target)
                              (latitude sample_twin, longitude sample_twin)
                            / 10) * 0.10
              + Qmax 0 (1 - inject_Z (Z.abs (year_built sample_target
                                             - year_built sample_twin))
                            / 50) * 0.15
       /\ s == 0.55.
Proof.
  split; [reflexivity |]. split; [reflexivity |].
  destruct (similarity_score_weighted_sum grid_miles grid_miles_same_point
              sample_catalog sample_target sample_twin)
    as (s & Hs & Hsum & Hsame); [reflexivity | reflexivity |].
  exists s. split; [exact Hs |]. split; [exact Hsum |].
  apply Hsame; reflexivity.
Defined.

Lemma similarity_score_in_unit_interval_witness :
  0 < building_area sample_target
  /\ 0 < building_area sample_candidate
  /\ exists s,
       calculate_similarity_score grid_miles (catalog_agent sample_catalog)
         sample_target sample_candidate = Returned s
       /\ 0 <= s <= 1.
Proof.
  split; [reflexivity |]. split; [reflexivity |].
  apply (similarity_score_in_unit_interval grid_miles grid_miles_nonneg
           sample_catalog sample_target sample_candidate); reflexivity.
Defined.

Lemma similarity_score_symmetric_witness :
  0 < building_area sample_target
  /\ 0 < building_area sample_candidate
  /\ exists s1 s2,
       calculate_similarity_score grid_miles (catalog_agent sample_catalog)
         sample_target sample_candidate = Returned s1
       /\ calculate_similarity_score grid_miles (catalog_agent sample_catalog)
            sample_candidate sample_target = Returned s2
       /\ s1 == s2.
Proof.
  split; [reflexivity |]. split; [reflexivity |].
  apply (similarity_score_symmetric grid_miles grid_miles_sym
           sample_catalog sample_target sample_candidate); reflexivity.
Defined.

(** C3, as stated, fails for a target that is not in the catalog: all four
    catalog records are returned, not [min(5, 4 - 1) = 3]. *)
Lemma find_comparables_length_adhoc_target :
  exists l,
    find_comparables grid_miles (catalog_agent sample_catalog) adhoc_target 5
    = Returned l
    /\ Z.of_nat (length l) = 4%Z
    /\ Z.of_nat (length l)
       <> Z.min 5 (Z.of_nat (length
                     (properties_db (catalog_agent sample_catalog))) - 1).
Proof.
  destruct (find_comparables grid_miles (catalog_agent sample_catalog)
              adhoc_target 5) as [l | e] eqn:E.
  - exists l. split; [reflexivity |].
    vm_compute in E. inversion E; subst. split; [reflexivity | discriminate].
  - vm_compute in E. discriminate.
Qed.

Lemma find_comparables_length_witness :
  (0 <= 5)%Z
  /\ 0 < building_area sample_target
  /\ Forall (fun p => 0 < building_area p) sample_catalog
  /\ exists l,
       find_comparables grid_miles (catalog_agent sample_catalog)
         sample_target 5 = Returned l
       /\ Z.of_nat (length l)
          = Z.min 5 (Z.of_nat (length
                       (other_properties sample_target sample_catalog)))
       /\ (length (List.filter
             (fun p => bool_decide (property_id p = property_id sample_target))
             sample_catalog) = 1%nat ->
           Z.of_nat (length l)
           = Z.min 5 (Z.of_nat (length sample_catalog) - 1)).
Proof.
  split; [lia |]. split; [reflexivity |].
  split; [exact sample_catalog_positive |].
  apply (find_comparables_length grid_miles sample_catalog sample_target 5);
    [lia | reflexivity | exact sample_catalog_positive].
Defined.

Lemma find_comparables_excludes_target_witness :
  find_comparables grid_miles (catalog_agent sample_catalog) sample_target 5
  = Returned sample_comparables
  /\ length sample_comparables = 3%nat
  /\ Forall (fun c => property_id c.1 ≠ property_id sample_target)
            sample_comparables.
Proof.
  split; [exact sample_comparables_found |]. split; [reflexivity |].
  apply (find_comparables_excludes_target grid_miles
           (catalog_agent sample_catalog) sample_target 5 sample_comparables).
  exact sample_comparables_found.
Defined.

Lemma find_comparables_sorted_stable_witness :
  find_comparables grid_miles (catalog_agent sample_catalog) sample_target 5
  = Returned sample_comparables
  /\ StronglySorted (fun x y => y.2 <= x.2) sample_comparables
  /\ exists scored,
       scored_others grid_miles (catalog_agent sample_catalog) sample_target
         scored
       /\ forall s, with_score s sample_comparables
                    `prefix_of` with_score s scored.
Proof.
  split; [exact sample_comparables_found |].
  apply (find_comparables_sorted_stable grid_miles
           (catalog_agent sample_catalog) sample_target 5 sample_comparables).
  exact sample_comparables_found.
Defined.

(** C2, as stated, fails: a record with a negative building area does not
    pass [_validate_property_data], and yet the facade scores it against the
    whole catalog and returns an analysis. *)
Lemma invalid_record_is_analyzed :
  _validate_property_data invalid_test_property = false
  /\ exists target comps summary,
       analyze_property_comparables grid_miles sample_now sample_system
         None (Some invalid_test_property)
       = Returned (ResultsDict target comps summary)
       /\ building_area target < 0
       /\ length comps = 4%nat.
Proof.
  split; [vm_compute; reflexivity |].
  destruct (analyze_property_comparables grid_miles sample_now sample_system
              None (Some invalid_test_property))
    as [[msg | target comps summary] | e] eqn:E.
  - vm_compute in E. discriminate.
  - exists target, comps, summary. split; [reflexivity |].
    vm_compute in E. inversion E; subst. split; reflexivity.
  - vm_compute in E. discriminate.
Qed.

Lemma analyze_by_record_unvalidated_witness :
  truthy_str None = None
  /\ _validate_property_data (asdict invalid_record) = false
  /\ analyze_property_comparables grid_miles sample_now sample_system
       None (Some (asdict invalid_record))
     = (comps ← find_comparables grid_miles
                  (comparable_discovery sample_system) invalid_record 5;
        Returned (analysis_results sample_now invalid_record comps))
  /\ (forall target,
        PropertyData_from_kwargs sample_now invalid_test_property
        = Returned target ->
        analyze_property_comparables grid_miles sample_now sample_system
          None (Some invalid_test_property)
        = (comps ← find_comparables grid_miles
                     (comparable_discovery sample_system) target 5;
           Returned (analysis_results sample_now target comps))).
Proof.
  split; [reflexivity |]. split; [vm_compute; reflexivity |].
  destruct (analyze_by_record_unvalidated grid_miles sample_now sample_system
              None eq_refl) as (Hrecord & Hdict & _).
  split; [exact (Hrecord invalid_record) |].
  intros target.
  exact (Hdict invalid_test_property target invalid_test_property_nonempty).
Defined.

(** C9, as stated, fails for the empty identifier: no catalog record
    carries it, and the facade answers as if no selector had been given. *)
Lemma analyze_empty_id_is_argument_error :
  Forall (fun p => property_id p ≠ ""%string)
         (properties_database sample_system)
  /\ analyze_property_comparables grid_miles sample_now sample_system
       (Some ""%string) None
     = Returned argument_error
  /\ argument_error ≠ not_found_error "".
Proof.
  split; [repeat constructor; discriminate |].
  split; [reflexivity | discriminate].
Qed.

Lemma analyze_unknown_id_witness :
  "ZZ9999"%string ≠ ""%string
  /\ Forall (fun p => property_id p ≠ "ZZ9999"%string)
            (properties_database sample_system)
  /\ analyze_property_comparables grid_miles sample_now sample_system
       (Some "ZZ9999"%string) None
     = Returned (not_found_error "ZZ9999").
Proof.
  assert (Hdb : Forall (fun p => property_id p ≠ "ZZ9999"%string)
                  (properties_database sample_system))
    by (repeat constructor; discriminate).
  split; [discriminate |]. split; [exact Hdb |].
  apply (analyze_unknown_id grid_miles sample_now sample_system "ZZ9999" None);
    [discriminate | exact Hdb].
Defined.

Lemma analyze_confidence_always_low_witness :
  Forall (fun p => 0 < building_area p) sample_catalog
  /\ _validate_property_data test_property = true
  /\ exists target comps summary,
       analyze_property_comparables grid_miles sample_now sample_system
         None (Some test_property)
       = Returned (ResultsDict target comps summary)
       /\ length comps = 4%nat
       /\ Forall (fun c => confidence_level c = "Low"%string) comps.
Proof.
  split; [exact sample_catalog_positive |].
  split; [vm_compute; reflexivity |].
  destruct (analyze_property_comparables grid_miles sample_now sample_system
              None (Some test_property))
    as [[msg | target comps summary] | e] eqn:E.
  - vm_compute in E. discriminate.
  - exists target, comps, summary. split; [reflexivity |]. split.
    + vm_compute in E. inversion E; subst. reflexivity.
    + apply (analyze_confidence_always_low grid_miles sample_now
               grid_miles_nonneg sample_catalog None (Some test_property)
               target comps summary);
        [ exact sample_catalog_positive
        | intros data Hdata; inversion Hdata; subst; vm_compute; reflexivity
        | exact E ].
  - vm_compute in E. discriminate.
Defined.

(* ===================================================================== *)
(** ** More on the score and the finder *)
(* ===================================================================== *)

Section FinderMore.
Variable geodesic_miles : Q * Q -> Q * Q -> Q.

(** The two ways in which a constructed agent's score ends. *)
Lemma calculate_similarity_score_cases (db : list PropertyData)
    (target comp : PropertyData) :
  (py_max (building_area target) (building_area comp) == 0
   /\ calculate_similarity_score geodesic_miles (catalog_agent db) target comp
      = Raised ZeroDivisionError)
  \/ (~ py_max (building_area target) (building_area comp) == 0
      /\ calculate_similarity_score geodesic_miles (catalog_agent db)
           target comp
         = Returned (score_value geodesic_miles target comp)).
Proof.
  unfold calculate_similarity_score, py_truediv.
  destruct (Qeq_bool (py_max (building_area target) (building_area comp)) 0)
    eqn:E.
  - left. split; [apply Qeq_bool_iff, E | reflexivity].
  - right. split.
    + intros H. apply Qeq_bool_iff in H. congruence.
    + reflexivity.
Qed.

(** X1. Scoring raises [ZeroDivisionError] exactly when the larger of the
    two building areas is zero: the division of the areas is the first
    statement, before the distance is asked for. *)
Theorem similarity_score_zero_division (db : list PropertyData)
    (target comp : PropertyData) :
  calculate_similarity_score geodesic_miles (catalog_agent db) target comp
  = Raised ZeroDivisionError
  <-> Qmax (building_area target) (building_area comp) == 0.
Proof.
  rewrite <- py_max_Qmax.
  destruct (calculate_similarity_score_cases db target comp)
    as [[Hz ->] | [Hnz ->]].
  - tauto.
  - split; [discriminate | tauto].
Qed.

Lemma find_loop_cases (db0 db : list PropertyData) (target : PropertyData)
    (acc : list (PropertyData * Q)) :
  (Exists (unscorable target) db
   /\ py_for db
        (find_comparables_step geodesic_miles (catalog_agent db0) target) acc
      = Raised ZeroDivisionError)
  \/ (~ Exists (unscorable target) db
      /\ py_for db
           (find_comparables_step geodesic_miles (catalog_agent db0) target) acc
         = Returned
             (acc ++ map (fun p => (p, score_value geodesic_miles target p))
                         (other_properties target db))).
Proof.
  revert acc. induction db as [| p db IH]; intros acc.
  - right. split; [intros H; inversion H |].
    simpl. rewrite app_nil_r. reflexivity.
  - rewrite py_for_cons.
    destruct (decide (property_id p = property_id target)) as [E | E].
    + rewrite find_comparables_step_same by exact E.
      rewrite other_properties_cons_same by exact E.
      destruct (IH acc) as [[Hex Hr] | [Hnex Hr]].
      * left. split; [apply Exists_cons_tl, Hex | exact Hr].
      * right. split; [| exact Hr].
        intros H. inversion H as [? ? [Hne _] | ? ? Htl]; subst; auto.
    + rewrite find_comparables_step_other by exact E.
      rewrite other_properties_cons_other by exact E.
      destruct (calculate_similarity_score_cases db0 target p)
        as [[Hz ->] | [Hnz ->]].
      * left. split; [| reflexivity].
        apply Exists_cons_hd. split; [exact E |].
        rewrite <- py_max_Qmax. exact Hz.
      * destruct (IH (acc ++ [(p, score_value geodesic_miles target p)]))
          as [[Hex Hr] | [Hnex Hr]].
        -- left. split; [apply Exists_cons_tl, Hex | exact Hr].
        -- right. split.
           ++ intros H. inversion H as [? ? [_ Hz] | ? ? Htl]; subst; auto.
              apply Hnz. rewrite py_max_Qmax. exact Hz.
           ++ rewrite Hr, <- app_assoc. reflexivity.
Qed.

(** X2. The finder raises [ZeroDivisionError] only if the catalog holds
    a record, other than the target, whose building area and the target's
    have zero as their maximum; and when the catalog holds such a record
    the finder returns no list: one such record makes the whole query
    fail. *)
Theorem find_comparables_zero_division (db : list PropertyData)
    (target : PropertyData) (max_results : Z) :
  (find_comparables geodesic_miles (catalog_agent db) target max_results
   = Raised ZeroDivisionError ->
   Exists (unscorable target) db)
  /\ (Exists (unscorable target) db ->
      forall l,
        find_comparables geodesic_miles (catalog_agent db) target max_results
        <> Returned l).
Proof.
  unfold find_comparables.
  change (properties_db (catalog_agent db)) with db.
  destruct (find_loop_cases db db target []) as [[Hex ->] | [Hnex ->]].
  - split; [tauto |]. intros _ l. discriminate.
  - split; [discriminate | contradiction].
Qed.
End FinderMore.

Section FinderResults.
Variable geodesic_miles : Q * Q -> Q * Q -> Q.

Lemma StronglySorted_app_inv {A : Type} (R : A -> A -> Prop) (l1 l2 : list A) :
  StronglySorted R (l1 ++ l2) -> Forall (fun x => Forall (R x) l2) l1.
Proof.
  induction l1 as [| x l1 IH]; simpl; intros H; [constructor |].
  apply StronglySorted_inv in H as [Hs Hx].
  constructor; [| apply IH, Hs].
  apply Forall_app in Hx. apply Hx.
Qed.

Lemma scored_others_in_catalog (self : ComparableDiscoveryAgent)
    (target : PropertyData) (scored : list (PropertyData * Q)) :
  scored_others geodesic_miles self target scored ->
  Forall (fun c =>
            In c.1 (properties_db self)
            /\ property_id c.1 ≠ property_id target
            /\ calculate_similarity_score geodesic_miles self target c.1
               = Returned c.2) scored.
Proof.
  intros [Hfst Hsc]. apply List.Forall_forall. intros c Hc.
  assert (Hin : In c.1 (other_properties target (properties_db self))).
  { rewrite <- Hfst. apply List.in_map, Hc. }
  unfold other_properties in Hin. apply List.filter_In in Hin as [Hin Hid].
  apply bool_decide_eq_true in Hid.
  rewrite List.Forall_forall in Hsc. auto.
Qed.

(** X3. Every pair returned by the finder is a catalog record together
    with the score that [calculate_similarity_score] returns for it. *)
Theorem find_comparables_pairs_genuine (self : ComparableDiscoveryAgent)
    (target : PropertyData) (max_results : Z)
    (l : list (PropertyData * Q)) :
  find_comparables geodesic_miles self target max_results = Returned l ->
  Forall (fun c =>
            In c.1 (properties_db self)
            /\ calculate_similarity_score geodesic_miles self target c.1
               = Returned c.2) l.
Proof.
  intros H. apply find_comparables_inv in H as (scored & Hsc & ->).
  destruct (py_slice_to_firstn max_results (list_sort_reverse snd scored))
    as [n ->].
  apply firstn_Forall. rewrite list_sort_reverse_perm.
  eapply Forall_impl; [apply scored_others_in_catalog, Hsc |].
  simpl. intros c (Hin & _ & Hs). auto.
Qed.

(** X4. The finder returns the best-scoring records: the returned list
    and the list of the scored records it leaves out make up all catalog
    records other than the target, and no record left out has a higher
    score than a returned one. *)
Theorem find_comparables_keeps_best (self : ComparableDiscoveryAgent)
    (target : PropertyData) (max_results : Z)
    (l : list (PropertyData * Q)) :
  find_comparables geodesic_miles self target max_results = Returned l ->
  exists scored rest,
    scored_others geodesic_miles self target scored
    /\ l ++ rest ≡ₚ scored
    /\ Forall (fun c => Forall (fun r => r.2 <= c.2) rest) l.
Proof.
  intros H. apply find_comparables_inv in H as (scored & Hsc & ->).
  destruct (py_slice_to_firstn max_results (list_sort_reverse snd scored))
    as [n ->].
  exists scored, (skipn n (list_sort_reverse snd scored)).
  split; [exact Hsc |]. split.
  - rewrite firstn_skipn. apply list_sort_reverse_perm.
  - apply (StronglySorted_app_inv (key_ge snd)).
    rewrite firstn_skipn. apply list_sort_reverse_sorted.
Qed.

(** X5. When [max_results] is at least the number of catalog records
    other than the target, the finder returns all of them. *)
Theorem find_comparables_complete (self : ComparableDiscoveryAgent)
    (target : PropertyData) (max_results : Z)
    (l : list (PropertyData * Q)) :
  (Z.of_nat (length (other_properties target (properties_db self)))
   <= max_results)%Z ->
  find_comparables geodesic_miles self target max_results = Returned l ->
  map fst l ≡ₚ other_properties target (properties_db self).
Proof.
  intros Hk H. apply find_comparables_inv in H as (scored & [Hfst Hsc] & ->).
  assert (Hlen : length scored
                 = length (other_properties target (properties_db self))).
  { rewrite <- Hfst, length_map. reflexivity. }
  unfold py_slice_to. destruct (Z.leb_spec 0 max_results); [| lia].
  rewrite firstn_all2
    by (rewrite list_sort_reverse_length; lia).
  rewrite list_sort_reverse_perm. rewrite Hfst. reflexivity.
Qed.

End FinderResults.

(* ===================================================================== *)
(** ** More on the analysis facade *)
(* ===================================================================== *)

Lemma py_round_round_half_even (x : Q) (ndigits : nat) :
  py_round x ndigits
  = inject_Z (round_half_even (x * inject_Z (10 ^ Z.of_nat ndigits)))
    / inject_Z (10 ^ Z.of_nat ndigits).
Proof. reflexivity. Qed.

Lemma round_half_even_mono (y y' : Q) :
  y <= y' -> (round_half_even y <= round_half_even y')%Z.
Proof.
  intros H. unfold round_half_even.
  pose proof (Qfloor_resp_le _ _ H) as Hf.
  destruct (Z.eq_dec (Qfloor y) (Qfloor y')) as [E | E].
  - rewrite <- E.
    destruct (Qcompare_spec (y - inject_Z (Qfloor y)) (1 # 2));
      destruct (Qcompare_spec (y' - inject_Z (Qfloor y)) (1 # 2));
      try lra; destruct (Z.even (Qfloor y)); lia.
  - destruct (y - inject_Z (Qfloor y) ?= 1 # 2);
      destruct (y' - inject_Z (Qfloor y') ?= 1 # 2);
      destruct (Z.even (Qfloor y)); destruct (Z.even (Qfloor y')); lia.
Qed.

Lemma py_round_mono (x x' : Q) (ndigits : nat) :
  x <= x' -> py_round x ndigits <= py_round x' ndigits.
Proof.
  intros H. rewrite !py_round_round_half_even.
  set (scale := inject_Z (10 ^ Z.of_nat ndigits)).
  assert (Hscale : 0 < scale).
  { unfold scale. change 0 with (inject_Z 0). rewrite <- Zlt_Qlt.
    apply Z.pow_pos_nonneg; lia. }
  assert (Hy : x * scale <= x' * scale) by (apply Qmult_le_compat_r; lra).
  apply round_half_even_mono in Hy. rewrite Zle_Qle in Hy.
  apply Qle_shift_div_l; [exact Hscale |].
  unfold Qdiv. rewrite <- Qmult_assoc, (Qmult_comm (/ scale)).
  rewrite Qmult_inv_r by lra. lra.
Qed.

Lemma StronglySorted_map {A B : Type} (R : A -> A -> Prop)
    (R' : B -> B -> Prop) (f : A -> B) (l : list A) :
  (forall x y, R x y -> R' (f x) (f y)) ->
  StronglySorted R l -> StronglySorted R' (map f l).
Proof.
  intros Hf. induction 1 as [| x l Hl IH Hx]; simpl; constructor.
  - exact IH.
  - apply List.Forall_map. eapply Forall_impl; [exact Hx |]. auto.
Qed.

Lemma py_sum_acc_bounds (lo hi : Q) (xs : list Q) (a : Q) :
  Forall (fun x => lo <= x <= hi) xs ->
  a + lo * inject_Z (Z.of_nat (length xs)) <= fold_left Qplus xs a
  /\ fold_left Qplus xs a <= a + hi * inject_Z (Z.of_nat (length xs)).
Proof.
  intros H. revert a. induction H as [| x xs Hx Hxs IH]; intros a.
  - simpl. change (inject_Z (Z.of_nat 0)) with 0. lra.
  - simpl fold_left. destruct (IH (a + x)) as [IH1 IH2].
    assert (E : inject_Z (Z.of_nat (length (x :: xs)))
                == inject_Z (Z.of_nat (length xs)) + 1).
    { simpl length. rewrite Nat2Z.inj_succ. unfold Z.succ.
      rewrite inject_Z_plus. reflexivity. }
    rewrite E. split; lra.
Qed.

Lemma average_bounds (lo hi : Q) (x : Q) (xs : list Q) :
  Forall (fun y => lo <= y <= hi) (x :: xs) ->
  lo <= py_sum (x :: xs) / inject_Z (Z.of_nat (length (x :: xs))) <= hi.
Proof.
  intros H. unfold py_sum.
  destruct (py_sum_acc_bounds lo hi (x :: xs) 0 H) as [H1 H2].
  set (n := inject_Z (Z.of_nat (length (x :: xs)))) in *.
  assert (Hn : 0 < n).
  { unfold n. change 0 with (inject_Z 0). rewrite <- Zlt_Qlt. simpl. lia. }
  split.
  - apply Qle_shift_div_l; [exact Hn | lra].
  - apply Qle_shift_div_r; [exact Hn | lra].
Qed.

Section FacadeMore.
Variable geodesic_miles : Q * Q -> Q * Q -> Q.
Variable now : string.

Hypothesis geodesic_nonneg : forall p q, 0 <= geodesic_miles p q.

(** How a successful analysis came about. *)
Lemma analyze_results_inv (self : PropertyAnalysisSystem)
    (pid : option string) (property_data : option (gmap string pyval))
    (target : PropertyData) (comps : list ComparableData)
    (summary : AnalysisSummary) :
  analyze_property_comparables geodesic_miles now self pid property_data
  = Returned (ResultsDict target comps summary) ->
  exists cs,
    find_comparables geodesic_miles (comparable_discovery self) target 5
    = Returned cs
    /\ analysis_results now target cs = ResultsDict target comps summary
    /\ ((exists id, truthy_str pid = Some id
                    /\ get_property_by_id self id = Some target)
        \/ (truthy_str pid = None
            /\ exists data, truthy_dict property_data = Some data
                 /\ PropertyData_from_kwargs now data = Returned target)).
Proof.
  unfold analyze_property_comparables. intros H.
  assert (Hreport : forall t,
    (cs ← find_comparables geodesic_miles (comparable_discovery self) t 5;
     Returned (analysis_results now t cs))
    = Returned (ResultsDict target comps summary) ->
    t = target
    /\ exists cs,
         find_comparables geodesic_miles (comparable_discovery self) target 5
         = Returned cs
         /\ analysis_results now target cs = ResultsDict target comps summary).
  { intros t Ht.
    destruct (find_comparables geodesic_miles (comparable_discovery self) t 5)
      as [cs |] eqn:E; outcome_simpl_in Ht; [| discriminate].
    assert (t = target) by (unfold analysis_results in Ht; congruence).
    subst t. split; [reflexivity |]. exists cs. split; congruence. }
  destruct (truthy_str pid) as [id |] eqn:Epid.
  - fold (get_property_by_id self id) in H.
    destruct (get_property_by_id self id) as [t |] eqn:Efind;
      [| discriminate].
    apply Hreport in H as [-> (cs & Hcs & Hres)].
    exists cs. split; [exact Hcs |]. split; [exact Hres |].
    left. exists id. auto.
  - destruct (truthy_dict property_data) as [data |] eqn:Edata;
      [| discriminate].
    destruct (PropertyData_from_kwargs now data) as [t |] eqn:Et;
      outcome_simpl_in H; [| discriminate].
    apply Hreport in H as [-> (cs & Hcs & Hres)].
    exists cs. split; [exact Hcs |]. split; [exact Hres |].
    right. split; [reflexivity |]. exists data. auto.
Qed.

(** X6. In every analysis result the comparables are listed by
    non-increasing reported (rounded) similarity score. *)
Theorem analyze_reported_scores_sorted (self : PropertyAnalysisSystem)
    (pid : option string) (property_data : option (gmap string pyval))
    (target : PropertyData) (comps : list ComparableData)
    (summary : AnalysisSummary) :
  analyze_property_comparables geodesic_miles now self pid property_data
  = Returned (ResultsDict target comps summary) ->
  StronglySorted (fun x y => similarity_score y <= similarity_score x) comps.
Proof.
  intros H. apply analyze_results_inv in H as (cs & Hcs & Hres & _).
  unfold analysis_results in Hres. inversion Hres; subst. clear Hres.
  apply find_comparables_inv in Hcs as (scored & _ & ->).
  destruct (py_slice_to_firstn 5 (list_sort_reverse snd scored)) as [n ->].
  apply (StronglySorted_map (key_ge snd)).
  - intros x y Hxy. simpl. apply py_round_mono. exact Hxy.
  - apply firstn_sorted, list_sort_reverse_sorted.
Qed.

(** X7. An analysis result reports at most five comparables, and
    [total_comparables_found] is their number. *)
Theorem analyze_at_most_five (self : PropertyAnalysisSystem)
    (pid : option string) (property_data : option (gmap string pyval))
    (target : PropertyData) (comps : list ComparableData)
    (summary : AnalysisSummary) :
  analyze_property_comparables geodesic_miles now self pid property_data
  = Returned (ResultsDict target comps summary) ->
  total_comparables_found summary = length comps
  /\ (length comps <= 5)%nat.
Proof.
  intros H. apply analyze_results_inv in H as (cs & Hcs & Hres & _).
  unfold analysis_results in Hres. inversion Hres; subst. clear Hres.
  simpl. rewrite length_map. split; [reflexivity |].
  apply find_comparables_inv in Hcs as (scored & _ & ->).
  unfold py_slice_to. simpl. rewrite length_firstn. lia.
Qed.
End FacadeMore.

Section FacadeSelectors.
Variable geodesic_miles : Q * Q -> Q * Q -> Q.
Variable now : string.

Hypothesis geodesic_nonneg : forall p q, 0 <= geodesic_miles p q.

Lemma get_property_by_id_found (self : PropertyAnalysisSystem) (id : string)
    (p : PropertyData) :
  get_property_by_id self id = Some p ->
  In p (properties_database self) /\ property_id p = id.
Proof.
  unfold get_property_by_id. intros H.
  apply List.find_some in H as [Hin Hid].
  apply bool_decide_eq_true in Hid. auto.
Qed.

(** X8. An analysis by a non-empty identifier reports as target the
    record that [get_property_by_id] finds for it, and no reported
    comparable carries that identifier. *)
Theorem analyze_by_id_target (self : PropertyAnalysisSystem) (id : string)
    (property_data : option (gmap string pyval))
    (target : PropertyData) (comps : list ComparableData)
    (summary : AnalysisSummary) :
  id ≠ ""%string ->
  analyze_property_comparables geodesic_miles now self (Some id) property_data
  = Returned (ResultsDict target comps summary) ->
  get_property_by_id self id = Some target
  /\ property_id target = id
  /\ Forall (fun c => property_id (comp_property c) ≠ id) comps.
Proof.
  intros Hid H.
  apply analyze_results_inv in H as (cs & Hcs & Hres & Hsel).
  rewrite (truthy_str_nonempty _ Hid) in Hsel.
  destruct Hsel as [(id' & Eid & Hget) | [Eid _]]; [| discriminate].
  inversion Eid; subst id'. clear Eid.
  pose proof (get_property_by_id_found _ _ _ Hget) as [_ Htid].
  split; [exact Hget |]. split; [exact Htid |].
  unfold analysis_results in Hres. inversion Hres; subst comps. clear Hres.
  apply List.Forall_map. simpl.
  apply find_comparables_inv in Hcs as (scored & Hsc & ->).
  destruct (py_slice_to_firstn 5 (list_sort_reverse snd scored)) as [n ->].
  apply firstn_Forall. rewrite list_sort_reverse_perm.
  eapply Forall_impl; [apply scored_others_in_catalog, Hsc |].
  simpl. intros c (_ & Hne & _). rewrite <- Htid. exact Hne.
Qed.

Lemma unique_id_count (db : list PropertyData) (t : PropertyData) :
  NoDup (map property_id db) -> In t db ->
  length (List.filter
            (fun p => bool_decide (property_id p = property_id t)) db)
  = 1%nat.
Proof.
  induction db as [| p db IH]; simpl; intros Hnd Hin; [contradiction |].
  apply NoDup_cons in Hnd as [Hp Hnd].
  destruct (decide (property_id p = property_id t)) as [E | E].
  - rewrite (bool_decide_eq_true_2 _ E). simpl. f_equal.
    apply length_zero_iff_nil.
    destruct (List.filter _ db) as [| q l] eqn:Ef; [reflexivity |].
    assert (Hq : In q (List.filter
               (fun p0 => bool_decide (property_id p0 = property_id t)) db))
      by (rewrite Ef; left; reflexivity).
    apply List.filter_In in Hq as [Hq Hqid].
    apply bool_decide_eq_true in Hqid.
    exfalso. apply Hp. rewrite E, <- Hqid.
    apply list_elem_of_In, List.in_map, Hq.
  - rewrite (bool_decide_eq_false_2 _ E).
    destruct Hin as [-> | Hin]; [contradiction |]. apply IH; assumption.
Qed.

(** X9. Over a catalog with distinct identifiers and positive building
    areas, the analysis by the identifier of a catalog record returns a
    result with [min(5, catalog_size - 1)] comparables. *)
Theorem analyze_by_id_count (db : list PropertyData) (id : string)
    (property_data : option (gmap string pyval)) :
  id ≠ ""%string ->
  NoDup (map property_id db) ->
  Forall (fun p => 0 < building_area p) db ->
  Exists (fun p => property_id p = id) db ->
  exists target comps summary,
    analyze_property_comparables geodesic_miles now (catalog_system db)
      (Some id) property_data
    = Returned (ResultsDict target comps summary)
    /\ Z.of_nat (length comps) = Z.min 5 (Z.of_nat (length db) - 1).
Proof.
  intros Hid Hnd Hpos Hex.
  unfold analyze_property_comparables.
  rewrite (truthy_str_nonempty _ Hid).
  change (properties_database (catalog_system db)) with db.
  change (comparable_discovery (catalog_system db)) with (catalog_agent db).
  destruct (List.find (fun p => bool_decide (property_id p = id)) db)
    as [t |] eqn:Efind.
  - apply List.find_some in Efind as [Hin Htid].
    apply bool_decide_eq_true in Htid.
    assert (Ht : 0 < building_area t)
      by (rewrite List.Forall_forall in Hpos; auto).
    rewrite find_comparables_returns by assumption.
    outcome_simpl. eexists _, _, _. split; [reflexivity |].
    rewrite length_map, py_slice_to_length by lia.
    rewrite list_sort_reverse_length, length_map.
    pose proof (other_properties_length t db).
    pose proof (unique_id_count db t Hnd Hin). lia.
  - exfalso. apply List.Exists_exists in Hex as (p & Hp & Hpid).
    eapply List.find_none in Efind; [| exact Hp].
    apply bool_decide_eq_false in Efind. contradiction.
Qed.

(** X10. Over a catalog with positive building areas and for a target
    with a positive building area, the reported average similarity score
    lies between 0 and 0.55. *)
Theorem analyze_average_bounds (db : list PropertyData)
    (pid : option string) (property_data : option (gmap string pyval))
    (target : PropertyData) (comps : list ComparableData)
    (summary : AnalysisSummary) :
  Forall (fun p => 0 < building_area p) db ->
  0 < building_area target ->
  analyze_property_comparables geodesic_miles now (catalog_system db)
    pid property_data
  = Returned (ResultsDict target comps summary) ->
  0 <= avg_similarity_score summary <= 0.55.
Proof using geodesic_nonneg.
  intros Hpos Ht H.
  apply analyze_results_inv in H as (cs & Hcs & Hres & _).
  change (comparable_discovery (catalog_system db)) with (catalog_agent db)
    in Hcs.
  rewrite find_comparables_returns in Hcs by assumption.
  assert (Hall : Forall (fun c : PropertyData * Q => 0 <= c.2 <= 0.55) cs).
  { injection Hcs as <-.
    match goal with
    | |- Forall _ (py_slice_to ?k ?l) =>
        destruct (py_slice_to_firstn k l) as [n ->]
    end.
    apply firstn_Forall. rewrite list_sort_reverse_perm.
    apply List.Forall_map, List.Forall_forall. intros p Hp. simpl.
    unfold other_properties in Hp. apply List.filter_In in Hp as [Hp _].
    rewrite List.Forall_forall in Hpos.
    apply (score_value_bounds geodesic_miles geodesic_nonneg); auto. }
  unfold analysis_results in Hres. inversion Hres; subst summary. simpl.
  destruct cs as [| c cs']; [lra |].
  rewrite <- (length_map snd (c :: cs')).
  change (map snd (c :: cs')) with (c.2 :: map snd cs').
  apply average_bounds.
  change (c.2 :: map snd cs') with (map snd (c :: cs')).
  apply List.Forall_map. exact Hall.
Qed.

(** X11. When no catalog record has an identifier other than the
    target's (in particular over an empty catalog), an analysis by record
    raises nothing: it reports no comparable, a count of 0 and an average
    of 0. *)
Theorem analyze_without_candidates (self : PropertyAnalysisSystem)
    (pid : option string) (data : gmap string pyval)
    (target : PropertyData) :
  truthy_str pid = None ->
  data ≠ ∅ ->
  PropertyData_from_kwargs now data = Returned target ->
  other_properties target (properties_db (comparable_discovery self)) = [] ->
  analyze_property_comparables geodesic_miles now self pid (Some data)
  = Returned (ResultsDict target []
                {| total_comparables_found := 0;
                   avg_similarity_score := 0;
                   analysis_date := now |}).
Proof.
  intros Hpid Hdata Hctor Hothers. unfold analyze_property_comparables.
  rewrite Hpid, (truthy_dict_nonempty _ Hdata), Hctor. outcome_simpl.
  assert (Hfind : find_comparables geodesic_miles (comparable_discovery self)
                    target 5 = Returned []).
  { unfold find_comparables.
    assert (Hloop : forall db acc,
      other_properties target db = [] ->
      py_for db (find_comparables_step geodesic_miles
                   (comparable_discovery self) target) acc = Returned acc).
    { induction db as [| p db IH]; intros acc Hnil; [reflexivity |].
      rewrite py_for_cons.
      destruct (decide (property_id p = property_id target)) as [E | E].
      - rewrite find_comparables_step_same by exact E.
        rewrite other_properties_cons_same in Hnil by exact E. auto.
      - rewrite other_properties_cons_other in Hnil by exact E.
        discriminate. }
    rewrite (Hloop _ _ Hothers). reflexivity. }
  rewrite Hfind. reflexivity.
Qed.
End FacadeSelectors.

(* ===================================================================== *)
(** ** Catalog queries *)
(* ===================================================================== *)

Section CatalogQueries.
Variable geodesic_miles : Q * Q -> Q * Q -> Q.
Variable now : string.

Lemma find_first_spec {A : Type} (f : A -> bool) (l : list A) (x : A) :
  List.find f l = Some x <->
  exists before after,
    l = before ++ x :: after /\ f x = true
    /\ Forall (fun y => f y = false) before.
Proof.
  split.
  - induction l as [| y l IH]; simpl; [discriminate |].
    destruct (f y) eqn:E.
    + intros [= ->]. exists [], l. repeat split; [exact E | constructor].
    + intros H. apply IH in H as (before & after & -> & Hx & Hb).
      exists (y :: before), after. repeat split; [exact Hx |].
      constructor; assumption.
  - intros (before & after & -> & Hx & Hb).
    induction Hb as [| y before Hy Hb IH]; simpl.
    + rewrite Hx. reflexivity.
    + rewrite Hy. exact IH.
Qed.

(** X12. [get_property_by_id] returns the first catalog record that
    carries the identifier: the records before it carry other identifiers. *)
Theorem get_property_by_id_first (self : PropertyAnalysisSystem) (id : string)
    (p : PropertyData) :
  get_property_by_id self id = Some p <->
  exists before after,
    properties_database self = before ++ p :: after
    /\ property_id p = id
    /\ Forall (fun q => property_id q ≠ id) before.
Proof.
  unfold get_property_by_id. rewrite find_first_spec.
  split; intros (before & after & Hdb & Hp & Hb);
    exists before, after; (split; [exact Hdb |]); split.
  - apply bool_decide_eq_true in Hp. exact Hp.
  - eapply Forall_impl; [exact Hb |]. simpl. intros q Hq.
    apply bool_decide_eq_false in Hq. exact Hq.
  - apply bool_decide_eq_true. exact Hp.
  - eapply Forall_impl; [exact Hb |]. simpl. intros q Hq.
    apply bool_decide_eq_false. exact Hq.
Qed.

(** X13. For a non-empty identifier, the analysis answers with the
    not-found error exactly when [get_property_by_id] finds no record. *)
Theorem analyze_not_found_iff (self : PropertyAnalysisSystem) (id : string)
    (property_data : option (gmap string pyval)) :
  id ≠ ""%string ->
  (analyze_property_comparables geodesic_miles now self (Some id)
     property_data
   = Returned (not_found_error id)
   <-> get_property_by_id self id = None).
Proof.
  intros Hid. unfold analyze_property_comparables.
  rewrite (truthy_str_nonempty _ Hid).
  fold (get_property_by_id self id).
  destruct (get_property_by_id self id) as [t |]; [| tauto].
  split; [| discriminate].
  destruct (find_comparables geodesic_miles (comparable_discovery self) t 5);
    outcome_simpl; unfold analysis_results, not_found_error; discriminate.
Qed.

Lemma List_filter_sublist {A : Type} (f : A -> bool) (l : list A) :
  List.filter f l `sublist_of` l.
Proof.
  induction l as [| x l IH]; simpl; [constructor |].
  destruct (f x); [apply sublist_skip | apply sublist_cons]; exact IH.
Qed.

Lemma firstn_sublist {A : Type} (n : nat) (l : list A) :
  firstn n l `sublist_of` l.
Proof.
  revert n. induction l as [| x l IH]; intros [| n]; simpl;
    try constructor; auto.
  apply sublist_nil_l.
Qed.

Lemma map_sublist {A B : Type} (f : A -> B) (l1 l2 : list A) :
  l1 `sublist_of` l2 -> map f l1 `sublist_of` map f l2.
Proof. induction 1; simpl; constructor; assumption. Qed.

(** X14. With a non-empty county and a non-negative limit,
    [list_properties] returns summaries of catalog records of that county
    only, in catalog order, and as many as the smaller of the limit and the
    number of catalog records of that county. *)
Theorem list_properties_by_county (self : PropertyAnalysisSystem)
    (c : string) (limit : Z) :
  c ≠ ""%string ->
  (0 <= limit)%Z ->
  Forall (fun s => summary_county s = c) (list_properties self (Some c) limit)
  /\ list_properties self (Some c) limit
     `sublist_of` map property_summary (properties_database self)
  /\ Z.of_nat (length (list_properties self (Some c) limit))
     = Z.min limit
         (Z.of_nat (length (List.filter (fun p => bool_decide (county p = c))
                                        (properties_database self)))).
Proof.
  intros Hc Hlimit. unfold list_properties.
  rewrite (truthy_str_nonempty _ Hc).
  set (matching := List.filter _ _).
  split; [| split].
  - apply List.Forall_map.
    destruct (py_slice_to_firstn limit matching) as [n ->].
    apply firstn_Forall. apply List.Forall_forall. intros p Hp.
    apply List.filter_In in Hp as [_ Hp].
    apply bool_decide_eq_true in Hp. exact Hp.
  - apply map_sublist.
    destruct (py_slice_to_firstn limit matching) as [n ->].
    etransitivity; [apply firstn_sublist | apply List_filter_sublist].
  - rewrite length_map. apply py_slice_to_length. exact Hlimit.
Qed.

End CatalogQueries.

(* ===================================================================== *)
(** ** Validation and construction of records *)
(* ===================================================================== *)

Lemma field_present_inv (d : gmap string pyval) (k : string)
    (type : pyval -> bool) :
  field_present_with_type d (k, type) = true
  <-> exists v, d !! k = Some v /\ type v = true.
Proof.
  unfold field_present_with_type. simpl.
  destruct (d !! k) as [v |]; split.
  - intros H. exists v. split; [reflexivity | exact H].
  - intros (v' & Hv & H). congruence.
  - discriminate.
  - intros (v' & Hv & _). discriminate.
Qed.

Lemma isinstance_str_inv (v : pyval) :
  isinstance_str v = true <-> exists s, v = PyStr s.
Proof.
  destruct v; simpl; split; try discriminate; eauto;
    intros [s' Hs]; discriminate.
Qed.

Lemma area_check_iff (v : pyval) :
  isinstance_int_or_float v = true /\ py_le_number v 0 = Returned false
  <-> positive_or_special v.
Proof.
  unfold positive_or_special. destruct v; simpl; split;
    try (intros [? ?]; discriminate);
    try (intros [(? & ? & ?) | [? | ?]]; discriminate);
    try (intros _; split; reflexivity);
    try (intros _; right; auto; fail).
  - intros [_ H]. left. eexists. split; [reflexivity |].
    apply Qle_bool_false. congruence.
  - intros [(area & [= <-] & Hpos) | [? | ?]]; try discriminate.
    split; [reflexivity |]. f_equal. apply Qle_bool_false_iff. exact Hpos.
  - intros [_ H]. left. eexists. split; [reflexivity |].
    apply Qle_bool_false. congruence.
  - intros [(area & [= <-] & Hpos) | [? | ?]]; try discriminate.
    split; [reflexivity |]. f_equal. apply Qle_bool_false_iff. exact Hpos.
Qed.

Lemma range_check_iff (lo hi : Q) (v : pyval) :
  isinstance_float v = true /\ py_between lo v hi = Returned true
  <-> exists x, v = PyFloat x /\ lo <= x <= hi.
Proof.
  unfold py_between. destruct v; simpl; split;
    try (intros [? ?]; discriminate);
    try (intros (? & ? & ?); discriminate).
  - intros [_ H]. outcome_simpl_in H.
    destruct (Qle_bool lo q) eqn:Elo; [| discriminate].
    simpl in H. injection H as Ehi.
    apply Qle_bool_iff in Elo, Ehi. eauto.
  - intros (x & [= <-] & Hlo & Hhi). split; [reflexivity |].
    outcome_simpl. apply Qle_bool_iff in Hlo, Hhi.
    rewrite Hlo. simpl. rewrite Hhi. reflexivity.
Qed.

(** What the validator accepts. *)
Lemma validate_property_data_iff (data : gmap string pyval) :
  _validate_property_data data = true <->
  (exists s, data !! "property_id"%string = Some (PyStr s))
  /\ (exists s, data !! "address"%string = Some (PyStr s))
  /\ (exists s, data !! "zoning"%string = Some (PyStr s))
  /\ (exists area,
        data !! "building_area"%string = Some area
        /\ positive_or_special area)
  /\ (exists lat,
        data !! "latitude"%string = Some (PyFloat lat)
        /\ -90 <= lat <= 90)
  /\ (exists lon,
        data !! "longitude"%string = Some (PyFloat lon)
        /\ -180 <= lon <= 180).
Proof.
  unfold _validate_property_data, required_fields.
  cbn [forallb]. rewrite andb_true_r.
  split.
  - destruct (negb _) eqn:Etypes; [discriminate |].
    apply negb_false_iff in Etypes.
    repeat (apply andb_true_iff in Etypes as [? Etypes]).
    repeat match goal with
    | F : field_present_with_type _ _ = true |- _ =>
        apply field_present_inv in F as (? & ? & ?)
    end.
    repeat match goal with
    | F : isinstance_str _ = true |- _ =>
        apply isinstance_str_inv in F as [? ->]
    end.
    unfold validate_ranges, py_getitem.
    repeat match goal with
    | E : data !! _ = Some _ |- _ => rewrite E
    end.
    outcome_simpl.
    match goal with
    | E : data !! "building_area"%string = Some ?v |- _ =>
        destruct (py_le_number v 0) as [[|] |] eqn:Earea;
          outcome_simpl; try discriminate
    end.
    match goal with
    | E : data !! "latitude"%string = Some ?v |- _ =>
        destruct (py_between (-90) v 90) as [[|] |] eqn:Elat;
          outcome_simpl; try discriminate
    end.
    match goal with
    | E : data !! "longitude"%string = Some ?v |- _ =>
        destruct (py_between (-180) v 180) as [[|] |] eqn:Elon;
          outcome_simpl; try discriminate
    end.
    intros _.
    match goal with
    | F : isinstance_float ?v = true, E : py_between (-90) ?v 90 = _ |- _ =>
        destruct (proj1 (range_check_iff _ _ _) (conj F E))
          as (lat & -> & Hlat)
    end.
    match goal with
    | F : isinstance_float ?v = true, E : py_between (-180) ?v 180 = _ |- _ =>
        destruct (proj1 (range_check_iff _ _ _) (conj F E))
          as (lon & -> & Hlon)
    end.
    match goal with
    | F : isinstance_int_or_float ?v = true |- _ =>
        pose proof (proj1 (area_check_iff _) (conj F Earea)) as Hpos
    end.
    repeat split; eauto.
  - intros ((sid & Hid) & (sa & Ha) & (sz & Hz) & (area & Harea & Hpos)
            & (lat & Hlat & Hlat_range) & (lon & Hlon & Hlon_range)).
    apply area_check_iff in Hpos as [Tarea Earea].
    destruct (proj2 (range_check_iff (-90) 90 (PyFloat lat)))
      as [Tlat Elat]; [eauto |].
    destruct (proj2 (range_check_iff (-180) 180 (PyFloat lon)))
      as [Tlon Elon]; [eauto |].
    assert (Htypes :
      field_present_with_type data ("property_id"%string, isinstance_str)
      && (field_present_with_type data ("address"%string, isinstance_str)
      && (field_present_with_type data
            ("building_area"%string, isinstance_int_or_float)
      && (field_present_with_type data ("latitude"%string, isinstance_float)
      && (field_present_with_type data ("longitude"%string, isinstance_float)
      && field_present_with_type data ("zoning"%string, isinstance_str)))))
      = true).
    { repeat (apply andb_true_iff; split);
        apply field_present_inv; eauto. }
    rewrite Htypes. simpl.
    unfold validate_ranges, py_getitem.
    rewrite Harea, Hlat, Hlon. outcome_simpl.
    rewrite Earea. outcome_simpl. rewrite Elat. outcome_simpl.
    rewrite Elon. reflexivity.
Qed.

(** X15. [_validate_property_data] accepts a dictionary exactly when
    [property_id], [address] and [zoning] are strings, [building_area] is
    an int or a float for which [building_area <= 0] is false, that is a
    positive number, NaN or plus infinity, and [latitude] and [longitude]
    are finite floats within [-90, 90] and [-180, 180]; an integer
    latitude or longitude is not accepted. *)
Theorem validate_property_data_spec (data : gmap string pyval) :
  _validate_property_data data = true <->
  (exists s, data !! "property_id"%string = Some (PyStr s))
  /\ (exists s, data !! "address"%string = Some (PyStr s))
  /\ (exists s, data !! "zoning"%string = Some (PyStr s))
  /\ (exists area,
        data !! "building_area"%string = Some area
        /\ ((exists x, pyval_number area = Some x /\ 0 < x)
            \/ area = PyNaN \/ area = PyInf))
  /\ (exists lat,
        data !! "latitude"%string = Some (PyFloat lat)
        /\ -90 <= lat <= 90)
  /\ (exists lon,
        data !! "longitude"%string = Some (PyFloat lon)
        /\ -180 <= lon <= 180).
Proof. exact (validate_property_data_iff data). Qed.

Lemma PropertyData_from_kwargs_fields (now : string) (d : gmap string pyval)
    (t : PropertyData) :
  PropertyData_from_kwargs now d = Returned t ->
  kw_float d "latitude" = Returned (latitude t)
  /\ kw_float d "longitude" = Returned (longitude t)
  /\ kw_float d "building_area" = Returned (building_area t)
  /\ kw_str d "zoning" = Returned (zoning t)
  /\ exists stamp,
       kw_opt_str d "last_updated" = Returned stamp
       /\ last_updated t = default now stamp.
Proof.
  intros H. kw_cases H d. inversion H; subst; simpl.
  repeat split; try assumption. eauto.
Qed.

(** The validator accepts a building area that is not a number, since
    [nan <= 0] is false, and rejects such a latitude. *)
Example validate_accepts_nan_area :
  _validate_property_data (test_property_with_area PyNaN) = true
  /\ _validate_property_data (<["latitude"%string := PyNaN]> test_property)
     = false.
Proof. split; vm_compute; reflexivity. Qed.

(** X16. A dictionary that passes [_validate_property_data] and from which
    the constructor builds a record of finite numbers gives a record for
    which [building_area <= 0] does not hold, with a latitude within
    [-90, 90] and a longitude within [-180, 180]. *)
Theorem validated_record_invariants (now : string) (data : gmap string pyval)
    (t : PropertyData) :
  _validate_property_data data = true ->
  PropertyData_from_kwargs now data = Returned t ->
  ~ building_area t <= 0
  /\ -90 <= latitude t <= 90
  /\ -180 <= longitude t <= 180.
Proof.
  intros Hvalid Hctor.
  apply PropertyData_from_kwargs_fields in Hctor
    as (Elat & Elon & Earea & _).
  apply kw_float_returned in Elat, Elon, Earea.
  pose proof (validated_area_positive data _ Hvalid Earea) as Hpos.
  apply validate_property_data_iff in Hvalid
    as (_ & _ & _ & _ & (lat & Hlat & Hlat_range)
        & (lon & Hlon & Hlon_range)).
  rewrite Hlat in Elat. rewrite Hlon in Elon. simpl in Elat, Elon.
  assert (lat = latitude t) by congruence.
  assert (lon = longitude t) by congruence.
  subst. split; [apply Qlt_not_le; exact Hpos | auto].
Qed.

(** X17. Building a record from the dictionary of a record gives the
    record back: the constructor applied to the entries of [asdict p] as
    keyword arguments returns [p]. *)
Theorem PropertyData_asdict_roundtrip (now : string) (p : PropertyData) :
  PropertyData_from_kwargs now (asdict p) = Returned p.
Proof. exact (asdict_roundtrip now p). Qed.


(* ===================================================================== *)
(** ** The mock county API and the extraction *)
(* ===================================================================== *)

Lemma py_list_filter_returned {A : Type} (cond : A -> outcome bool)
    (l res : list A) :
  py_list_filter cond l = Returned res ->
  res = List.filter (fun x => holds (cond x)) l.
Proof.
  revert res. induction l as [| x l IH]; simpl; intros res H.
  - inversion H. reflexivity.
  - outcome_simpl_in H.
    destruct (cond x) as [keep |]; [| discriminate].
    destruct (py_list_filter cond l) as [rest |]; [| discriminate].
    inversion H; subst. simpl. rewrite <- (IH rest eq_refl).
    reflexivity.
Qed.

Lemma filter_stage_returned {F : Type} (f : option F)
    (cond : F -> gmap string pyval -> outcome bool)
    (rows res : list (gmap string pyval)) :
  filter_stage f cond rows = Returned res ->
  res = List.filter (stage_matches f cond) rows.
Proof.
  unfold filter_stage, stage_matches. destruct f as [x |]; intros H.
  - apply py_list_filter_returned in H. exact H.
  - inversion H; subst. clear H.
    induction res as [| p res IH]; simpl; [reflexivity |]. f_equal. exact IH.
Qed.

Lemma List_filter_filter {A : Type} (f g : A -> bool) (l : list A) :
  List.filter g (List.filter f l) = List.filter (fun x => f x && g x) l.
Proof.
  induction l as [| x l IH]; simpl; [reflexivity |].
  destruct (f x); simpl; [destruct (g x) |]; rewrite IH; reflexivity.
Qed.

(** What [get_properties] returns. *)
Lemma get_properties_filter (properties res : list (gmap string pyval))
    (filters : PropertyFilters) :
  get_properties properties filters = Returned res ->
  res = List.filter (row_matches filters) properties.
Proof.
  unfold get_properties. intros H.
  destruct (filter_stage (filter_zoning filters) _ properties)
    as [r1 |] eqn:E1; outcome_simpl_in H; [| discriminate].
  destruct (filter_stage (filter_min_building_area filters) _ r1)
    as [r2 |] eqn:E2; outcome_simpl_in H; [| discriminate].
  destruct (filter_stage (filter_max_building_area filters) _ r2)
    as [r3 |] eqn:E3; outcome_simpl_in H; [| discriminate].
  apply filter_stage_returned in E1, E2, E3, H. subst.
  rewrite !List_filter_filter. apply List.filter_ext.
  intros p. unfold row_matches. rewrite !andb_assoc. reflexivity.
Qed.

(** X18. When [get_properties] returns, it returns exactly the rows that
    pass every filter present in [filters], in their original order. *)
Theorem get_properties_spec (properties res : list (gmap string pyval))
    (filters : PropertyFilters) :
  get_properties properties filters = Returned res ->
  res = List.filter (row_matches filters) properties.
Proof. exact (get_properties_filter properties res filters). Qed.

Lemma asdict_zoning (r : PropertyData) :
  asdict r !! "zoning"%string = Some (PyStr (zoning r)).
Proof. destruct r. reflexivity. Qed.

Lemma asdict_city (r : PropertyData) :
  asdict r !! "city"%string = Some (PyStr (city r)).
Proof. destruct r. reflexivity. Qed.

Lemma asdict_building_area (r : PropertyData) :
  asdict r !! "building_area"%string = Some (PyFloat (building_area r)).
Proof. destruct r. reflexivity. Qed.

Lemma py_list_filter_asdict (cond : gmap string pyval -> outcome bool)
    (f : PropertyData -> bool) (rs : list PropertyData) :
  (forall r, cond (asdict r) = Returned (f r)) ->
  py_list_filter cond (map asdict rs)
  = Returned (map asdict (List.filter f rs)).
Proof.
  intros Hcond. induction rs as [| r rs IH]; [reflexivity |].
  cbn [map py_list_filter List.filter].
  rewrite Hcond, IH. unfold mbind, outcome_bind.
  destruct (f r); reflexivity.
Qed.

(** [get_properties] on the dictionaries of records. *)
Lemma get_properties_asdict (rs : list PropertyData)
    (filters : PropertyFilters) :
  get_properties (map asdict rs) filters
  = Returned (map asdict (List.filter (record_matches filters) rs)).
Proof.
  unfold get_properties, record_matches.
  destruct filters as [fz fmin fmax fc]. simpl.
  assert (Hz : filter_stage fz (row_item_in "zoning") (map asdict rs)
    = Returned (map asdict (List.filter
        (fun r => match fz with
                  | Some codes => bool_decide (zoning r ∈ codes)
                  | None => true
                  end) rs))).
  { destruct fz as [codes |]; simpl.
    - apply py_list_filter_asdict. intros r. unfold row_item_in, py_getitem.
      rewrite asdict_zoning. reflexivity.
    - f_equal. f_equal. induction rs as [| r rs IH]; simpl; congruence. }
  rewrite Hz. outcome_simpl. clear Hz.
  set (r1 := List.filter _ rs).
  assert (Hmin : filter_stage fmin (row_item_ge "building_area")
                   (map asdict r1)
    = Returned (map asdict (List.filter
        (fun r => match fmin with
                  | Some bound => Qle_bool bound (building_area r)
                  | None => true
                  end) r1))).
  { destruct fmin as [bound |]; simpl.
    - apply py_list_filter_asdict. intros r. unfold row_item_ge, py_getitem.
      rewrite asdict_building_area. reflexivity.
    - f_equal. f_equal. induction r1 as [| r r1' IH]; simpl; congruence. }
  rewrite Hmin. clear Hmin.
  set (r2 := List.filter _ r1).
  assert (Hmax : filter_stage fmax (row_item_le "building_area")
                   (map asdict r2)
    = Returned (map asdict (List.filter
        (fun r => match fmax with
                  | Some bound => Qle_bool (building_area r) bound
                  | None => true
                  end) r2))).
  { destruct fmax as [bound |]; simpl.
    - apply py_list_filter_asdict. intros r. unfold row_item_le, py_getitem.
      rewrite asdict_building_area. reflexivity.
    - f_equal. f_equal. induction r2 as [| r r2' IH]; simpl; congruence. }
  rewrite Hmax. clear Hmax.
  set (r3 := List.filter _ r2).
  assert (Hcity : filter_stage fc (row_item_eq "city") (map asdict r3)
    = Returned (map asdict (List.filter
        (fun r => match fc with
                  | Some c => bool_decide (city r = c)
                  | None => true
                  end) r3))).
  { destruct fc as [c |]; simpl.
    - apply py_list_filter_asdict. intros r. unfold row_item_eq, py_getitem.
      rewrite asdict_city. reflexivity.
    - f_equal. f_equal. induction r3 as [| r r3' IH]; simpl; congruence. }
  rewrite Hcity. subst r3 r2 r1.
  rewrite !List_filter_filter. do 2 f_equal. apply List.filter_ext.
  intros r. rewrite !andb_assoc. reflexivity.
Qed.

(** X19. On rows that are the dictionaries of records, [get_properties]
    raises nothing and returns the dictionaries of the records whose zoning
    is among the requested codes, whose building area is within the
    requested bounds and whose city is the requested one, in order. *)
Theorem get_properties_of_records (rs : list PropertyData)
    (filters : PropertyFilters) :
  get_properties (map asdict rs) filters
  = Returned (map asdict (List.filter (record_matches filters) rs)).
Proof. exact (get_properties_asdict rs filters). Qed.

Lemma py_list_map_asdict (now : string) (rs : list PropertyData) :
  py_list_map (PropertyData_from_kwargs now) (map asdict rs) = Returned rs.
Proof.
  induction rs as [| r rs IH]; [reflexivity |].
  cbn [map py_list_map].
  rewrite asdict_roundtrip, IH. reflexivity.
Qed.

(** X20. On rows that are the dictionaries of records, the extraction
    returns the records whose zoning code is one of [M1], [M2], [I-1],
    [I-2], [IM], [IL], unchanged and in order; it raises nothing. *)
Theorem extract_industrial_of_records (now : string) (rs : list PropertyData) :
  extract_industrial_properties now (map asdict rs)
  = Returned (List.filter
                (fun r => bool_decide (zoning r ∈ industrial_zoning)) rs).
Proof.
  unfold extract_industrial_properties.
  rewrite get_properties_asdict. outcome_simpl.
  rewrite py_list_map_asdict. f_equal.
  apply List.filter_ext. intros r. unfold record_matches. simpl.
  rewrite !andb_true_r. reflexivity.
Qed.

Lemma py_list_map_returned {A B : Type} (f : A -> outcome B) (l : list A)
    (res : list B) :
  py_list_map f l = Returned res -> Forall2 (fun x y => f x = Returned y) l res.
Proof.
  revert res. induction l as [| x l IH]; simpl; intros res H.
  - inversion H. constructor.
  - outcome_simpl_in H. destruct (f x) as [y |] eqn:E; [| discriminate].
    destruct (py_list_map f l) as [rest |]; [| discriminate].
    inversion H; subst. constructor; auto.
Qed.

(** X21. Whatever the rows of the mock API, every record that the
    extraction returns has one of the six requested zoning codes, and the
    records are built, in order, from rows of the mock API. *)
Theorem extract_industrial_zoning (now : string)
    (mock_properties : list (gmap string pyval))
    (records : list PropertyData) :
  extract_industrial_properties now mock_properties = Returned records ->
  Forall (fun r => zoning r ∈ industrial_zoning) records
  /\ exists rows,
       rows `sublist_of` mock_properties
       /\ Forall2 (fun row r => PropertyData_from_kwargs now row = Returned r)
            rows records.
Proof.
  unfold extract_industrial_properties. intros H.
  destruct (get_properties mock_properties _) as [rows |] eqn:Erows;
    outcome_simpl_in H; [| discriminate].
  apply get_properties_filter in Erows.
  apply py_list_map_returned in H. split.
  - assert (Hrows : Forall (fun row =>
      exists s, row !! "zoning"%string = Some (PyStr s)
                /\ s ∈ industrial_zoning) rows).
    { subst rows. apply List.Forall_forall. intros row Hrow.
      apply List.filter_In in Hrow as [_ Hrow].
      unfold row_matches in Hrow. simpl in Hrow.
      rewrite !andb_true_r in Hrow.
      unfold row_item_in, py_getitem in Hrow.
      destruct (row !! "zoning"%string) as [[| s | z | q | | |] |];
        simpl in Hrow; try discriminate.
      apply bool_decide_eq_true in Hrow. eauto. }
    clear Erows. induction H as [| row r rows records Hr H IH];
      [constructor |].
    apply Forall_cons in Hrows as [(s & Hs & Hin) Hrows].
    constructor; [| apply IH, Hrows].
    apply PropertyData_from_kwargs_fields in Hr as (_ & _ & _ & Hz & _).
    apply kw_str_returned in Hz. congruence.
  - exists rows. split; [| exact H].
    subst rows. apply List_filter_sublist.
Qed.

(* ===================================================================== *)
(** ** The rate limiter *)
(* ===================================================================== *)

Lemma timedelta_seconds_recent (delta : Z) :
  (0 <= delta < one_minute)%Z -> (0 <= timedelta_seconds delta <= 59)%Z.
Proof.
  unfold one_minute, timedelta_seconds. intros H.
  rewrite Z.mod_small by lia.
  split; [apply Z.div_pos; lia |].
  apply Z.lt_succ_r. apply Z.div_lt_upper_bound; lia.
Qed.

Lemma kept_recent (now : Z) (times : list Z) :
  Forall (fun t => (now - t < one_minute)%Z)
         (List.filter (fun t => (now - t <? one_minute)%Z) times).
Proof.
  apply List.Forall_forall. intros t Ht.
  apply List.filter_In in Ht as [_ Ht]. apply Z.ltb_lt in Ht. exact Ht.
Qed.

(** X22. With a limit of at least one request per minute and no recorded
    time later than the clock, [wait_if_needed] raises nothing; it sleeps
    exactly when the window is full, and then for 1 to 60 seconds. *)
Theorem wait_if_needed_sleep_bounds (self : APIRateLimiter) (now : Z) :
  (1 <= max_requests_per_minute self)%Z ->
  Forall (fun t => (t <= now)%Z) (requests_made self) ->
  exists slept,
    (wait_if_needed self now).2 = inr slept
    /\ (forall s, slept = Some s -> (1 <= s <= 60)%Z)
    /\ (is_Some slept <-> window_full self now).
Proof.
  intros Hmax Hpast. unfold wait_if_needed, window_full.
  pose proof (kept_recent now (requests_made self)) as Hrecent.
  assert (Hkept_past : Forall (fun t => (t <= now)%Z)
            (List.filter (fun t => (now - t <? one_minute)%Z)
                         (requests_made self))).
  { apply List.Forall_forall. intros t Ht.
    apply List.filter_In in Ht as [Ht _].
    rewrite List.Forall_forall in Hpast. auto. }
  set (kept := List.filter _ (requests_made self)) in *.
  destruct (Z.leb_spec (max_requests_per_minute self)
                       (Z.of_nat (length kept))) as [Hfull | Hfree].
  - destruct kept as [| first rest]; [simpl in Hfull; lia |].
    apply Forall_cons in Hrecent as [Hfirst _].
    apply Forall_cons in Hkept_past as [Hfirst_past _].
    pose proof (timedelta_seconds_recent (now - first)) as Hsec.
    destruct (Z.ltb_spec (60 - timedelta_seconds (now - first)) 0);
      [lia |].
    eexists. split; [reflexivity |]. split.
    + intros s [= <-]. lia.
    + split; [intros _; exact Hfull | intros _; eexists; reflexivity].
  - exists None. split; [reflexivity |]. split; [discriminate |].
    split; [intros [s Hs]; discriminate | lia].
Qed.

(** X23. After a call that raises nothing, the recorded times are the
    earlier ones that are less than a minute old, in order, followed by the
    clock reading; every recorded time is then less than a minute old, and
    the limit is unchanged. *)
Theorem wait_if_needed_window (self self' : APIRateLimiter) (now : Z)
    (slept : option Z) :
  wait_if_needed self now = (self', inr slept) ->
  requests_made self'
  = List.filter (fun t => (now - t <? one_minute)%Z) (requests_made self)
    ++ [now]
  /\ Forall (fun t => (now - t < one_minute)%Z) (requests_made self')
  /\ max_requests_per_minute self' = max_requests_per_minute self.
Proof.
  unfold wait_if_needed. intros H.
  pose proof (kept_recent now (requests_made self)) as Hrecent.
  set (kept := List.filter _ (requests_made self)) in *.
  assert (Hrecorded : Forall (fun t => (now - t < one_minute)%Z)
                        (kept ++ [now])).
  { apply Forall_app. split; [exact Hrecent |].
    constructor; [unfold one_minute; lia | constructor]. }
  destruct (max_requests_per_minute self <=? Z.of_nat (length kept))%Z.
  - destruct kept as [| first rest] eqn:Ekept; [discriminate |].
    destruct (60 - timedelta_seconds (now - first) <? 0)%Z; [discriminate |].
    inversion H; subst. simpl. auto.
  - inversion H; subst. simpl. auto.
Qed.

(** X24. With a limit of zero (or less) and no recorded time less than a
    minute old, [wait_if_needed] raises [IndexError]; the recorded times
    are then emptied and the call is not recorded. *)
Theorem wait_if_needed_index_error (self : APIRateLimiter) (now : Z) :
  (max_requests_per_minute self <= 0)%Z ->
  Forall (fun t => (one_minute <= now - t)%Z) (requests_made self) ->
  wait_if_needed self now
  = ({| max_requests_per_minute := max_requests_per_minute self;
        requests_made := [];
        backoff_time := backoff_time self |}, inl IndexError).
Proof.
  intros Hmax Hold. unfold wait_if_needed.
  assert (Hkept : List.filter (fun t => (now - t <? one_minute)%Z)
                              (requests_made self) = []).
  { induction Hold as [| t times Ht Hold IH]; simpl; [reflexivity |].
    destruct (Z.ltb_spec (now - t) one_minute); [lia | exact IH]. }
  rewrite Hkept. simpl length. change (Z.of_nat 0) with 0%Z.
  destruct (Z.leb_spec (max_requests_per_minute self) 0); [reflexivity | lia].
Qed.

(* ===================================================================== *)
(** ** Field-name mapping *)
(* ===================================================================== *)

Lemma map_field_step_lookup (m : gmap string string) (a f : string) :
  map_field_step m a !! f
  = if decide (a = f)
    then match first_standard_match (normalize_name f) standard_mappings with
         | Some v => Some v
         | None => m !! f
         end
    else m !! f.
Proof.
  unfold map_field_step. destruct (decide (a = f)) as [-> | Hne].
  - destruct (first_standard_match _ _); [apply lookup_insert_eq | reflexivity].
  - destruct (first_standard_match (normalize_name a) standard_mappings);
      [apply lookup_insert_ne; exact Hne | reflexivity].
Qed.

Lemma map_field_fold_lookup (l : list string) (m : gmap string string)
    (f : string) :
  fold_left map_field_step l m !! f
  = if decide (f ∈ l)
    then match first_standard_match (normalize_name f) standard_mappings with
         | Some v => Some v
         | None => m !! f
         end
    else m !! f.
Proof.
  revert m. induction l as [| a l IH]; intros m; cbn [fold_left].
  - destruct (decide (f ∈ [])) as [H | _]; [| reflexivity].
    apply elem_of_nil in H. contradiction.
  - rewrite IH, map_field_step_lookup.
    destruct (decide (f ∈ l)) as [Hin | Hnin];
      destruct (decide (a = f)) as [-> | Hne];
      destruct (decide (f ∈ _ :: l)) as [Hin' | Hnin'];
      try reflexivity;
      try (exfalso; apply Hnin'; rewrite elem_of_cons; auto; fail);
      try (destruct (first_standard_match _ _); reflexivity).
    apply elem_of_cons in Hin' as [-> | Hin']; contradiction.
Qed.

(** X25. The mapping holds an entry for an ASCII field name exactly when
    the name is among the API fields and its normalised form (lower case,
    underscores removed) occurs inside a normalised standard key; the value
    is the one of the first such key of the table. *)
Theorem map_field_names_lookup (api_fields : list string) (f : string) :
  is_ascii_string f ->
  map_field_names api_fields !! f
  = if decide (f ∈ api_fields)
    then first_standard_match (normalize_name f) standard_mappings
    else None.
Proof.
  intros _. unfold map_field_names. rewrite map_field_fold_lookup.
  destruct (decide (f ∈ api_fields)); [| reflexivity].
  destruct (first_standard_match _ _); reflexivity.
Qed.

Lemma first_standard_match_value (n : string)
    (entries : list (string * string)) (v : string) :
  first_standard_match n entries = Some v -> v ∈ map snd entries.
Proof.
  induction entries as [| [k w] entries IH]; simpl; [discriminate |].
  destruct (str_contains n (normalize_name k)).
  - intros [= ->]. apply elem_of_cons. auto.
  - intros H. apply elem_of_cons. auto.
Qed.

Lemma standard_values_are_fields :
  Forall (fun v => v ∈ PropertyData_required) (map snd standard_mappings).
Proof. apply (bool_decide_unpack _). vm_compute. exact I. Qed.

(** X26. Every entry of the mapping sends one of the given API fields to
    the name of a required field of [PropertyData]. *)
Theorem map_field_names_sound (api_fields : list string) (f v : string) :
  map_field_names api_fields !! f = Some v ->
  f ∈ api_fields /\ v ∈ PropertyData_required.
Proof.
  unfold map_field_names. rewrite map_field_fold_lookup.
  destruct (decide (f ∈ api_fields)) as [Hin | Hnin].
  - destruct (first_standard_match _ _) as [w |] eqn:E.
    + intros [= ->]. split; [exact Hin |].
      apply first_standard_match_value in E.
      pose proof standard_values_are_fields as Hall.
      rewrite Forall_forall in Hall. auto.
    + rewrite lookup_empty. discriminate.
  - rewrite lookup_empty. discriminate.
Qed.

Lemma standard_keys_match_themselves :
  Forall (fun kv => first_standard_match (normalize_name kv.1)
                      standard_mappings = Some kv.2) standard_mappings.
Proof. apply (bool_decide_unpack _). vm_compute. exact I. Qed.

(** X27. No key of the table is shadowed by an earlier one: an API field
    that is spelled like a key of [standard_mappings] is mapped to the
    value of that key. *)
Theorem map_field_names_standard_key (api_fields : list string)
    (k v : string) :
  (k, v) ∈ standard_mappings ->
  k ∈ api_fields ->
  map_field_names api_fields !! k = Some v.
Proof.
  intros Hkv Hk. unfold map_field_names. rewrite map_field_fold_lookup.
  destruct (decide (k ∈ api_fields)); [| contradiction].
  pose proof standard_keys_match_themselves as Hall.
  rewrite Forall_forall in Hall. apply Hall in Hkv. cbn [fst snd] in Hkv.
  rewrite Hkv. reflexivity.
Qed.

Lemma str_contains_empty (hay : string) : str_contains "" hay = true.
Proof. destruct hay; reflexivity. Qed.

(** X28. An API field that normalises to the empty string (the empty
    name, or a name made of underscores) occurs inside every key, so it is
    mapped to the value of the first key of the table, [property_id]. *)
Theorem map_field_names_empty_name (api_fields : list string) (f : string) :
  normalize_name f = ""%string ->
  f ∈ api_fields ->
  map_field_names api_fields !! f = Some "property_id"%string.
Proof.
  intros Hf Hin. unfold map_field_names. rewrite map_field_fold_lookup.
  destruct (decide (f ∈ api_fields)); [| contradiction].
  rewrite Hf. reflexivity.
Qed.


(* ===================================================================== *)
(** ** System statistics *)
(* ===================================================================== *)

Lemma count_step_lookup (key : PropertyData -> string)
    (m : gmap string nat) (p : PropertyData) (k : string) :
  count_step key m p !! k
  = if decide (key p = k) then Some (default 0 (m !! k) + 1)%nat else m !! k.
Proof.
  unfold count_step. destruct (decide (key p = k)) as [<- | Hne].
  - apply lookup_insert_eq.
  - apply lookup_insert_ne. exact Hne.
Qed.

Lemma count_fold_lookup (key : PropertyData -> string)
    (db : list PropertyData) (m : gmap string nat) (k : string) :
  fold_left (count_step key) db m !! k
  = match count_with key k db with
    | O => m !! k
    | S c => Some (default 0 (m !! k) + S c)%nat
    end.
Proof.
  revert m. induction db as [| p db IH]; intros m; [reflexivity |].
  cbn [fold_left]. rewrite IH, count_step_lookup.
  unfold count_with. simpl List.filter.
  destruct (decide (key p = k)) as [E | E].
  - rewrite (bool_decide_eq_true_2 _ E). simpl length.
    destruct (length _); simpl; f_equal; lia.
  - rewrite (bool_decide_eq_false_2 _ E). reflexivity.
Qed.

Lemma count_by_lookup (key : PropertyData -> string)
    (db : list PropertyData) (k : string) :
  count_by key db !! k
  = match count_with key k db with
    | O => None
    | S c => Some (S c)
    end.
Proof.
  unfold count_by. rewrite count_fold_lookup, lookup_empty. reflexivity.
Qed.

Lemma counts_total_step (key : PropertyData -> string)
    (m : gmap string nat) (p : PropertyData) :
  counts_total (count_step key m p) = S (counts_total m).
Proof.
  unfold counts_total, count_step.
  destruct (m !! key p) as [n |] eqn:E; simpl.
  - rewrite <- insert_delete_eq.
    rewrite map_fold_insert_L; [| intros; lia | apply lookup_delete_eq].
    rewrite (map_fold_delete_L _ _ (key p) n m); [lia | intros; lia | exact E].
  - rewrite map_fold_insert_L; [lia | intros; lia | exact E].
Qed.

Lemma counts_total_fold (key : PropertyData -> string)
    (db : list PropertyData) (m : gmap string nat) :
  counts_total (fold_left (count_step key) db m)
  = (counts_total m + length db)%nat.
Proof.
  revert m. induction db as [| p db IH]; intros m; simpl; [lia |].
  rewrite IH, counts_total_step. lia.
Qed.

(** X29. In the statistics, the county distribution holds for each county
    the number of catalog records of that county, and no entry for a
    county without records; the same holds for the zoning distribution. *)
Theorem get_system_stats_distributions (self : PropertyAnalysisSystem)
    (now : string) (k : string) :
  county_distribution (get_system_stats self now) !! k
  = match count_with county k (properties_database self) with
    | O => None
    | S c => Some (S c)
    end
  /\ zoning_distribution (get_system_stats self now) !! k
     = match count_with zoning k (properties_database self) with
       | O => None
       | S c => Some (S c)
       end.
Proof. split; apply count_by_lookup. Qed.

(** X30. The counts of the county distribution add up to
    [total_properties], and so do those of the zoning distribution. *)
Theorem get_system_stats_totals (self : PropertyAnalysisSystem)
    (now : string) :
  counts_total (county_distribution (get_system_stats self now))
  = total_properties (get_system_stats self now)
  /\ counts_total (zoning_distribution (get_system_stats self now))
     = total_properties (get_system_stats self now).
Proof.
  unfold get_system_stats, count_by. simpl.
  rewrite !counts_total_fold. split; reflexivity.
Qed.

(* ===================================================================== *)
(** ** The added properties on the sample data *)
(* ===================================================================== *)

Lemma test_property_nonempty : test_property ≠ ∅.
Proof.
  intros H. apply (f_equal (fun m => m !! "city"%string)) in H.
  vm_compute in H. discriminate.
Qed.

Lemma test_record_built :
  PropertyData_from_kwargs sample_now test_property = Returned test_record.
Proof. vm_compute. reflexivity. Qed.

Lemma sample_catalog_distinct : NoDup (map property_id sample_catalog).
Proof. apply (bool_decide_unpack _). vm_compute. exact I. Qed.

Lemma find_comparables_pairs_genuine_witness :
  find_comparables grid_miles (catalog_agent sample_catalog) sample_target 5
  = Returned sample_comparables
  /\ Forall (fun c =>
       In c.1 (properties_db (catalog_agent sample_catalog))
       /\ calculate_similarity_score grid_miles (catalog_agent sample_catalog)
            sample_target c.1 = Returned c.2) sample_comparables.
Proof.
  split; [exact sample_comparables_found |].
  apply (find_comparables_pairs_genuine grid_miles
           (catalog_agent sample_catalog) sample_target 5 sample_comparables).
  exact sample_comparables_found.
Defined.

Lemma find_comparables_keeps_best_witness :
  find_comparables grid_miles (catalog_agent sample_catalog) sample_target 2
  = Returned (firstn 2 sample_comparables)
  /\ exists scored rest,
       scored_others grid_miles (catalog_agent sample_catalog) sample_target
         scored
       /\ firstn 2 sample_comparables ++ rest ≡ₚ scored
       /\ Forall (fun c => Forall (fun r => r.2 <= c.2) rest)
                 (firstn 2 sample_comparables).
Proof.
  assert (H : find_comparables grid_miles (catalog_agent sample_catalog)
                sample_target 2 = Returned (firstn 2 sample_comparables))
    by (vm_compute; reflexivity).
  split; [exact H |].
  apply (find_comparables_keeps_best grid_miles
           (catalog_agent sample_catalog) sample_target 2
           (firstn 2 sample_comparables)).
  exact H.
Defined.

Lemma find_comparables_complete_witness :
  (Z.of_nat (length (other_properties sample_target
                       (properties_db (catalog_agent sample_catalog))))
   <= 5)%Z
  /\ find_comparables grid_miles (catalog_agent sample_catalog)
       sample_target 5 = Returned sample_comparables
  /\ map fst sample_comparables
     ≡ₚ other_properties sample_target
          (properties_db (catalog_agent sample_catalog)).
Proof.
  assert (Hk : (Z.of_nat (length (other_properties sample_target
                    (properties_db (catalog_agent sample_catalog)))) <= 5)%Z)
    by (vm_compute; discriminate).
  split; [exact Hk |]. split; [exact sample_comparables_found |].
  apply (find_comparables_complete grid_miles (catalog_agent sample_catalog)
           sample_target 5 sample_comparables Hk).
  exact sample_comparables_found.
Defined.

Lemma analyze_reported_scores_sorted_witness :
  exists target comps summary,
    analyze_property_comparables grid_miles sample_now sample_system
      None (Some test_property)
    = Returned (ResultsDict target comps summary)
    /\ length comps = 4%nat
    /\ StronglySorted
         (fun x y => similarity_score y <= similarity_score x) comps.
Proof.
  destruct (analyze_property_comparables grid_miles sample_now sample_system
              None (Some test_property))
    as [[msg | target comps summary] | e] eqn:E.
  - vm_compute in E. discriminate.
  - exists target, comps, summary. split; [reflexivity |]. split.
    + vm_compute in E. inversion E; subst. reflexivity.
    + apply (analyze_reported_scores_sorted grid_miles sample_now
               sample_system None (Some test_property) target comps summary).
      exact E.
  - vm_compute in E. discriminate.
Defined.

Lemma analyze_at_most_five_witness :
  exists target comps summary,
    analyze_property_comparables grid_miles sample_now sample_system
      None (Some test_property)
    = Returned (ResultsDict target comps summary)
    /\ total_comparables_found summary = length comps
    /\ (length comps <= 5)%nat.
Proof.
  destruct (analyze_property_comparables grid_miles sample_now sample_system
              None (Some test_property))
    as [[msg | target comps summary] | e] eqn:E.
  - vm_compute in E. discriminate.
  - exists target, comps, summary. split; [reflexivity |].
    apply (analyze_at_most_five grid_miles sample_now sample_system None
             (Some test_property) target comps summary).
    exact E.
  - vm_compute in E. discriminate.
Defined.

Lemma analyze_by_id_target_witness :
  "CO0000"%string ≠ ""%string
  /\ exists target comps summary,
       analyze_property_comparables grid_miles sample_now sample_system
         (Some "CO0000"%string) None
       = Returned (ResultsDict target comps summary)
       /\ get_property_by_id sample_system "CO0000" = Some target
       /\ property_id target = "CO0000"%string
       /\ Forall (fun c => property_id (comp_property c) ≠ "CO0000"%string)
                 comps.
Proof.
  split; [discriminate |].
  destruct (analyze_property_comparables grid_miles sample_now sample_system
              (Some "CO0000"%string) None)
    as [[msg | target comps summary] | e] eqn:E.
  - vm_compute in E. discriminate.
  - exists target, comps, summary. split; [reflexivity |].
    apply (analyze_by_id_target grid_miles sample_now sample_system "CO0000"
             None target comps summary); [discriminate | exact E].
  - vm_compute in E. discriminate.
Defined.

Lemma analyze_by_id_count_witness :
  "CO0000"%string ≠ ""%string
  /\ NoDup (map property_id sample_catalog)
  /\ Forall (fun p => 0 < building_area p) sample_catalog
  /\ Exists (fun p => property_id p = "CO0000"%string) sample_catalog
  /\ exists target comps summary,
       analyze_property_comparables grid_miles sample_now
         (catalog_system sample_catalog) (Some "CO0000"%string) None
       = Returned (ResultsDict target comps summary)
       /\ Z.of_nat (length comps)
          = Z.min 5 (Z.of_nat (length sample_catalog) - 1).
Proof.
  assert (Hex : Exists (fun p => property_id p = "CO0000"%string)
                  sample_catalog) by (apply Exists_cons_hd; reflexivity).
  split; [discriminate |]. split; [exact sample_catalog_distinct |].
  split; [exact sample_catalog_positive |]. split; [exact Hex |].
  apply (analyze_by_id_count grid_miles sample_now sample_catalog "CO0000"
           None);
    [ discriminate | exact sample_catalog_distinct
    | exact sample_catalog_positive | exact Hex ].
Defined.

Lemma analyze_average_bounds_witness :
  Forall (fun p => 0 < building_area p) sample_catalog
  /\ exists target comps summary,
       analyze_property_comparables grid_miles sample_now
         (catalog_system sample_catalog) None (Some test_property)
       = Returned (ResultsDict target comps summary)
       /\ 0 < building_area target
       /\ 0 <= avg_similarity_score summary <= 0.55.
Proof.
  split; [exact sample_catalog_positive |].
  destruct (analyze_property_comparables grid_miles sample_now
              (catalog_system sample_catalog) None (Some test_property))
    as [[msg | target comps summary] | e] eqn:E.
  - vm_compute in E. discriminate.
  - assert (Ht : 0 < building_area target).
    { pose proof E as E'. vm_compute in E'. inversion E'; subst.
      reflexivity. }
    exists target, comps, summary. split; [reflexivity |].
    split; [exact Ht |].
    apply (analyze_average_bounds grid_miles sample_now grid_miles_nonneg
             sample_catalog None (Some test_property) target comps summary
             sample_catalog_positive Ht E).
  - vm_compute in E. discriminate.
Defined.

Lemma analyze_without_candidates_witness :
  truthy_str None = None
  /\ test_property ≠ ∅
  /\ PropertyData_from_kwargs sample_now test_property = Returned test_record
  /\ other_properties test_record
       (properties_db (comparable_discovery (catalog_system []))) = []
  /\ analyze_property_comparables grid_miles sample_now (catalog_system [])
       None (Some test_property)
     = Returned (ResultsDict test_record []
                   {| total_comparables_found := 0;
                      avg_similarity_score := 0;
                      analysis_date := sample_now |}).
Proof.
  split; [reflexivity |]. split; [exact test_property_nonempty |].
  split; [exact test_record_built |]. split; [reflexivity |].
  apply (analyze_without_candidates grid_miles sample_now (catalog_system [])
           None test_property test_record);
    [ reflexivity | exact test_property_nonempty | exact test_record_built
    | reflexivity ].
Defined.

Lemma analyze_not_found_iff_witness :
  "ZZ9999"%string ≠ ""%string
  /\ (analyze_property_comparables grid_miles sample_now sample_system
        (Some "ZZ9999"%string) None
      = Returned (not_found_error "ZZ9999")
      <-> get_property_by_id sample_system "ZZ9999" = None).
Proof.
  split; [discriminate |].
  apply (analyze_not_found_iff grid_miles sample_now sample_system "ZZ9999"
           None).
  discriminate.
Defined.

Lemma list_properties_by_county_witness :
  "Cook County"%string ≠ ""%string
  /\ (0 <= 2)%Z
  /\ Forall (fun s => summary_county s = "Cook County"%string)
            (list_properties sample_system (Some "Cook County"%string) 2)
  /\ list_properties sample_system (Some "Cook County"%string) 2
     `sublist_of` map property_summary (properties_database sample_system)
  /\ Z.of_nat (length (list_properties sample_system
                         (Some "Cook County"%string) 2))
     = Z.min 2
         (Z.of_nat (length (List.filter
            (fun p => bool_decide (county p = "Cook County"%string))
            (properties_database sample_system)))).
Proof.
  split; [discriminate |]. split; [lia |].
  apply (list_properties_by_county sample_system "Cook County" 2);
    [discriminate | lia].
Defined.

Lemma validated_record_invariants_witness :
  _validate_property_data test_property = true
  /\ PropertyData_from_kwargs sample_now test_property = Returned test_record
  /\ ~ building_area test_record <= 0
  /\ -90 <= latitude test_record <= 90
  /\ -180 <= longitude test_record <= 180.
Proof.
  assert (Hvalid : _validate_property_data test_property = true)
    by (vm_compute; reflexivity).
  split; [exact Hvalid |]. split; [exact test_record_built |].
  apply (validated_record_invariants sample_now test_property test_record
           Hvalid test_record_built).
Defined.

Lemma sample_rows_filtered :
  get_properties sample_rows sample_filters
  = Returned (map asdict (List.filter (record_matches sample_filters)
                            sample_mock_records)).
Proof. apply get_properties_asdict. Qed.

Lemma get_properties_spec_witness :
  get_properties sample_rows sample_filters
  = Returned (map asdict (List.filter (record_matches sample_filters)
                            sample_mock_records))
  /\ map asdict (List.filter (record_matches sample_filters)
                   sample_mock_records)
     = List.filter (row_matches sample_filters) sample_rows.
Proof.
  split; [exact sample_rows_filtered |].
  apply (get_properties_spec sample_rows _ sample_filters).
  exact sample_rows_filtered.
Defined.

Lemma extract_industrial_zoning_witness :
  exists records,
    extract_industrial_properties sample_now sample_rows = Returned records
    /\ length records = 2%nat
    /\ Forall (fun r => zoning r ∈ industrial_zoning) records
    /\ exists rows,
         rows `sublist_of` sample_rows
         /\ Forall2 (fun row r =>
                       PropertyData_from_kwargs sample_now row = Returned r)
              rows records.
Proof.
  destruct (extract_industrial_properties sample_now sample_rows)
    as [records | e] eqn:E.
  - exists records. split; [reflexivity |]. split.
    + vm_compute in E. inversion E; subst. reflexivity.
    + apply (extract_industrial_zoning sample_now sample_rows records).
      exact E.
  - vm_compute in E. discriminate.
Defined.

Lemma wait_if_needed_sleep_bounds_witness :
  (1 <= max_requests_per_minute sample_limiter)%Z
  /\ Forall (fun t => (t <= sample_clock)%Z) (requests_made sample_limiter)
  /\ exists slept,
       (wait_if_needed sample_limiter sample_clock).2 = inr slept
       /\ (forall s, slept = Some s -> (1 <= s <= 60)%Z)
       /\ (is_Some slept <-> window_full sample_limiter sample_clock).
Proof.
  assert (Hpast : Forall (fun t => (t <= sample_clock)%Z)
                    (requests_made sample_limiter))
    by (repeat constructor; discriminate).
  split; [discriminate |]. split; [exact Hpast |].
  apply (wait_if_needed_sleep_bounds sample_limiter sample_clock);
    [discriminate | exact Hpast].
Defined.

Lemma wait_if_needed_window_witness :
  exists self' slept,
    wait_if_needed sample_limiter sample_clock = (self', inr slept)
    /\ slept = Some 29%Z
    /\ requests_made self'
       = List.filter (fun t => (sample_clock - t <? one_minute)%Z)
                     (requests_made sample_limiter)
         ++ [sample_clock]
    /\ Forall (fun t => (sample_clock - t < one_minute)%Z)
              (requests_made self')
    /\ max_requests_per_minute self'
       = max_requests_per_minute sample_limiter.
Proof.
  destruct (wait_if_needed sample_limiter sample_clock)
    as [self' [e | slept]] eqn:E.
  - vm_compute in E. discriminate.
  - exists self', slept. split; [reflexivity |]. split.
    + vm_compute in E. inversion E; subst. reflexivity.
    + apply (wait_if_needed_window sample_limiter self' sample_clock slept).
      exact E.
Defined.

Lemma wait_if_needed_index_error_witness :
  (max_requests_per_minute (mkAPIRateLimiter 0 [0%Z] 1) <= 0)%Z
  /\ Forall (fun t => (one_minute <= sample_clock - t)%Z)
            (requests_made (mkAPIRateLimiter 0 [0%Z] 1))
  /\ wait_if_needed (mkAPIRateLimiter 0 [0%Z] 1) sample_clock
     = ({| max_requests_per_minute := 0;
           requests_made := [];
           backoff_time := 1 |}, inl IndexError).
Proof.
  assert (Hold : Forall (fun t => (one_minute <= sample_clock - t)%Z)
                   (requests_made (mkAPIRateLimiter 0 [0%Z] 1)))
    by (repeat constructor; discriminate).
  split; [simpl; lia |]. split; [exact Hold |].
  apply (wait_if_needed_index_error (mkAPIRateLimiter 0 [0%Z] 1) sample_clock);
    [simpl; lia | exact Hold].
Defined.

Lemma building_sqft_is_ascii : is_ascii_string "Building_SqFt".
Proof. unfold is_ascii_string. simpl. repeat constructor. Qed.

Lemma map_field_names_lookup_witness :
  is_ascii_string "Building_SqFt"
  /\ map_field_names sample_api_fields !! "Building_SqFt"%string
     = if decide ("Building_SqFt"%string ∈ sample_api_fields)
       then first_standard_match (normalize_name "Building_SqFt")
              standard_mappings
       else None.
Proof.
  split; [exact building_sqft_is_ascii |].
  apply (map_field_names_lookup sample_api_fields "Building_SqFt").
  exact building_sqft_is_ascii.
Defined.

Lemma map_field_names_sound_witness :
  map_field_names sample_api_fields !! "Building_SqFt"%string
  = Some "building_area"%string
  /\ "Building_SqFt"%string ∈ sample_api_fields
  /\ "building_area"%string ∈ PropertyData_required.
Proof.
  assert (H : map_field_names sample_api_fields !! "Building_SqFt"%string
              = Some "building_area"%string) by (vm_compute; reflexivity).
  split; [exact H |].
  apply (map_field_names_sound sample_api_fields "Building_SqFt"
           "building_area" H).
Defined.

Lemma map_field_names_standard_key_witness :
  ("zip_code", "zip_code")%string ∈ standard_mappings
  /\ "zip_code"%string ∈ sample_api_fields
  /\ map_field_names sample_api_fields !! "zip_code"%string
     = Some "zip_code"%string.
Proof.
  assert (Hkv : ("zip_code", "zip_code")%string ∈ standard_mappings)
    by (apply (bool_decide_unpack _); vm_compute; exact I).
  assert (Hk : "zip_code"%string ∈ sample_api_fields)
    by (apply (bool_decide_unpack _); vm_compute; exact I).
  split; [exact Hkv |]. split; [exact Hk |].
  apply (map_field_names_standard_key sample_api_fields "zip_code" "zip_code"
           Hkv Hk).
Defined.

Lemma map_field_names_empty_name_witness :
  normalize_name "__" = ""%string
  /\ "__"%string ∈ sample_api_fields
  /\ map_field_names sample_api_fields !! "__"%string
     = Some "property_id"%string.
Proof.
  assert (Hk : "__"%string ∈ sample_api_fields)
    by (apply (bool_decide_unpack _); vm_compute; exact I).
  split; [reflexivity |]. split; [exact Hk |].
  apply (map_field_names_empty_name sample_api_fields "__");
    [reflexivity | exact Hk].
Defined.
